(** * zylch-cli: token codec, session state and command dispatcher

    A shallow embedding of [zylch_cli/config.py] and [zylch_cli/cli.py] and
    the properties of the specification that concern them.

    Conventions of the embedding.
    - A Python [str] is a Rocq [string] whose characters are the code points
      U+0000..U+00FF; code points above U+00FF are outside the model.
    - Python [bytes] are lists of integers in [0, 256); the text produced by
      decoding bytes is a list of code points ([list Z]).
    - Python integers are unbounded, hence [Z].
    - A call that may raise returns a [result]; [try ... except Exception]
      is [try_except].
    - The collaborators that are not among the sources (the OAuth handler,
      the API client, the local storage, the clock) are the fields of a
      [world]; the library functions of the interpreter are the fields of
      [PyLib].  Console output and calls to collaborators are recorded as a
      list of events.
    - Writing the configuration file and reading the cache statistics are
      taken to succeed. *)

From Stdlib Require Import ZArith Lia List Ascii String Bool.
From stdpp Require Import base option list strings gmap.

#[local] Set Warnings "-register-all".
Local Open Scope Z_scope.

(** ** Python values and exceptions

    [ZylchAuthError] and [ZylchAPIError] are the two exceptions of
    [api_client] that cli.py names. *)

Inductive exn : Type :=
  | ValueError
  | TypeError
  | AttributeError
  | IndexError
  | BinasciiError
  | UnicodeDecodeError
  | JSONDecodeError
  | ZylchAuthError
  | ZylchAPIError (msg : string)
  | OtherError (msg : string).

Inductive result (A : Type) : Type :=
  | Ret (a : A)
  | Raise (e : exn).

Arguments Ret {A} a.
Arguments Raise {A} e.

#[global] Instance result_ret : MRet result := fun A a => Ret a.
#[global] Instance result_bind : MBind result := fun A B f r =>
  match r with
  | Ret a => f a
  | Raise e => Raise e
  end.

(** [try: body except Exception: handler]. *)
Definition try_except {A : Type} (body : result A) (handler : exn -> A) : A :=
  match body with
  | Ret a => a
  | Raise e => handler e
  end.

(** A float is denoted by a decimal [m * 10^e], an infinity or NaN. *)
Inductive pyfloat : Type :=
  | FNan
  | FInf (negative : bool)
  | FDec (m e : Z).

(** The values [json.loads] can produce.  A [dict] keeps one binding per
    key, in insertion order. *)
Inductive pyval : Type :=
  | PNone
  | PBool (b : bool)
  | PInt (z : Z)
  | PFloat (f : pyfloat)
  | PStr (s : list Z)
  | PList (l : list pyval)
  | PDict (d : list (list Z * pyval)).

Definition is_none (v : pyval) : bool :=
  match v with PNone => true | _ => false end.

(** [isinstance(v, int)]: [bool] is a subclass of [int]. *)
Definition is_int (v : pyval) : bool :=
  match v with PInt _ | PBool _ => true | _ => false end.

Fixpoint dict_get (k : list Z) (d : list (list Z * pyval)) : option pyval :=
  match d with
  | [] => None
  | (k', v) :: r => if decide (k = k') then Some v else dict_get k r
  end.

(** [d[k] = v]: overwrite in place or append. *)
Fixpoint dict_set (k : list Z) (v : pyval) (d : list (list Z * pyval))
  : list (list Z * pyval) :=
  match d with
  | [] => [(k, v)]
  | (k', v') :: r =>
      if decide (k = k') then (k', v) :: r else (k', v') :: dict_set k v r
  end.

(** ** Strings *)

Definition code (c : ascii) : Z := Z.of_N (N_of_ascii c).

Fixpoint codes (s : string) : list Z :=
  match s with
  | EmptyString => []
  | String c r => code c :: codes r
  end.

Definition len (s : string) : Z := Z.of_nat (String.length s).

(** [c * n] for a one-character string [c]. *)
Fixpoint str_repeat (c : ascii) (n : nat) : string :=
  match n with
  | O => EmptyString
  | S n' => String c (str_repeat c n')
  end.

(** [s.split(sep)] for a one-character separator. *)
Fixpoint split (sep : ascii) (s : string) : list string :=
  match s with
  | EmptyString => [EmptyString]
  | String c r =>
      let parts := split sep r in
      if Ascii.eqb c sep then EmptyString :: parts
      else match parts with
           | p :: ps => String c p :: ps
           | [] => [String c EmptyString]
           end
  end.

(** [l[i]] *)
Definition index {A : Type} (l : list A) (i : nat) : result A :=
  match l !! i with
  | Some a => Ret a
  | None => Raise IndexError
  end.

(** [data.get(key)]: only a [dict] has the method. *)
Definition py_get (data : pyval) (key : list Z) : result pyval :=
  match data with
  | PDict d => Ret (default PNone (dict_get key d))
  | _ => Raise AttributeError
  end.

(** ** The interpreter's library

    [base64.urlsafe_b64decode], [json.loads] and float arithmetic are not
    code of the repository.  The embedding is parametric in them; a model of
    CPython's behaviour ([Module CPython]) instantiates the interface
    further down and is what the closed examples are evaluated with. *)

Class PyLib : Type := {
  urlsafe_b64decode : string -> result (list Z);
  json_loads : list Z -> result pyval;
  float_sub_int : pyfloat -> Z -> pyfloat;
  float_gt_zero : pyfloat -> bool;
}.

(** ** config.py *)

Section Config.
Context {lib : PyLib}.

Definition add_padding (payload : string) : string :=
  let padding := 4 - len payload mod 4 in
  if negb (padding =? 4)
  then (payload +:+ str_repeat "=" (Z.to_nat padding))%string
  else payload.

(** The body of the [try] block of [parse_jwt_expiry]. *)
Definition parse_jwt_expiry_body (token : string) : result pyval :=
  let parts := split "." token in
  if negb (Z.of_nat (length parts) =? 3) then Ret PNone
  else
    payload ← index parts 1;
    let payload := add_padding payload in
    decoded ← urlsafe_b64decode payload;
    data ← json_loads decoded;
    py_get data (codes "exp").

Definition parse_jwt_expiry (token : string) : pyval :=
  try_except (parse_jwt_expiry_body token) (fun _ => PNone).

(** [exp - now] for an integer [now]. *)
Definition py_sub_int (v : pyval) (n : Z) : result pyval :=
  match v with
  | PInt z => Ret (PInt (z - n))
  | PBool b => Ret (PInt (Z.b2z b - n))
  | PFloat f => Ret (PFloat (float_sub_int f n))
  | PNone | PStr _ | PList _ | PDict _ => Raise TypeError
  end.

(** [v > 0] *)
Definition py_gt_zero (v : pyval) : result bool :=
  match v with
  | PInt z => Ret (0 <? z)
  | PBool b => Ret b
  | PFloat f => Ret (float_gt_zero f)
  | PNone | PStr _ | PList _ | PDict _ => Raise TypeError
  end.

(** [now] is the value of [int(time.time())]. *)
Definition check_token_status (now : Z) (token : string)
  : result (bool * pyval) :=
  if decide (token = EmptyString) then Ret (false, PNone)
  else
    let exp := parse_jwt_expiry token in
    if is_none exp then Ret (true, PNone)
    else
      seconds_remaining ← py_sub_int exp now;
      valid ← py_gt_zero seconds_remaining;
      Ret (valid, seconds_remaining).

End Config.

(** ** A model of the CPython library functions

    [urlsafe_b64decode] follows [binascii.a2b_base64] in its lenient mode;
    [json_loads] follows [json.detect_encoding], the codecs with the
    [surrogatepass] handler and the C scanner of the [json] package.  Not
    modelled: the interpreter's recursion limit, its limit on the digits of
    an integer literal, and the rounding of floats to binary64 (float
    arithmetic is exact decimal arithmetic here). *)

Module CPython.

(** *** base64 *)

(** The alphabet after the url-safe translation of [-] and [_]. *)
Definition b64_value (c : Z) : option Z :=
  if (65 <=? c) && (c <=? 90) then Some (c - 65)
  else if (97 <=? c) && (c <=? 122) then Some (c - 71)
  else if (48 <=? c) && (c <=? 57) then Some (c + 4)
  else if (c =? 43) || (c =? 45) then Some 62
  else if (c =? 47) || (c =? 95) then Some 63
  else None.

Fixpoint a2b_base64 (data : list Z) (quad_pos leftchar pads : Z)
  : result (list Z) :=
  match data with
  | [] => if quad_pos =? 0 then Ret [] else Raise BinasciiError
  | c :: rest =>
      if c =? 61 then
        if 2 <=? quad_pos then
          if 4 <=? quad_pos + (pads + 1) then Ret []
          else a2b_base64 rest quad_pos leftchar (pads + 1)
        else a2b_base64 rest quad_pos leftchar pads
      else
        match b64_value c with
        | None => a2b_base64 rest quad_pos leftchar pads
        | Some v =>
            if quad_pos =? 0 then a2b_base64 rest 1 v 0
            else if quad_pos =? 1 then
              out ← a2b_base64 rest 2 (Z.land v 15) 0;
              Ret (Z.lor (Z.shiftl leftchar 2) (Z.shiftr v 4) :: out)
            else if quad_pos =? 2 then
              out ← a2b_base64 rest 3 (Z.land v 3) 0;
              Ret (Z.lor (Z.shiftl leftchar 4) (Z.shiftr v 2) :: out)
            else
              out ← a2b_base64 rest 0 0 0;
              Ret (Z.lor (Z.shiftl leftchar 6) v :: out)
        end
  end.

Definition urlsafe_b64decode (s : string) : result (list Z) :=
  let data := codes s in
  if forallb (fun c => c <? 128) data
  then a2b_base64 data 0 0 0
  else Raise ValueError.

(** *** codecs *)

Definition is_cont (b : Z) : bool := Z.land b 192 =? 128.
Definition is_surrogate (c : Z) : bool := (55296 <=? c) && (c <=? 57343).
Definition is_high_surrogate (c : Z) : bool := (55296 <=? c) && (c <=? 56319).
Definition is_low_surrogate (c : Z) : bool := (56320 <=? c) && (c <=? 57343).
Definition join_surrogates (hi lo : Z) : Z :=
  65536 + Z.lor (Z.shiftl (Z.land hi 1023) 10) (Z.land lo 1023).

Fixpoint utf8_decode (n : nat) (b : list Z) : option (list Z) :=
  match n with
  | O => match b with [] => Some [] | _ => None end
  | S n' =>
      match b with
      | [] => Some []
      | b0 :: r =>
          if b0 <? 128 then cons b0 <$> utf8_decode n' r
          else if (194 <=? b0) && (b0 <=? 223) then
            match r with
            | b1 :: r1 =>
                if is_cont b1
                then cons (Z.lor (Z.shiftl (Z.land b0 31) 6) (Z.land b1 63))
                       <$> utf8_decode n' r1
                else None
            | _ => None
            end
          else if (224 <=? b0) && (b0 <=? 239) then
            match r with
            | b1 :: b2 :: r2 =>
                let c := Z.lor (Z.shiftl (Z.land b0 15) 12)
                           (Z.lor (Z.shiftl (Z.land b1 63) 6) (Z.land b2 63)) in
                if is_cont b1 && is_cont b2 && (2048 <=? c)
                then cons c <$> utf8_decode n' r2
                else None
            | _ => None
            end
          else if (240 <=? b0) && (b0 <=? 244) then
            match r with
            | b1 :: b2 :: b3 :: r3 =>
                let c := Z.lor (Z.shiftl (Z.land b0 7) 18)
                           (Z.lor (Z.shiftl (Z.land b1 63) 12)
                              (Z.lor (Z.shiftl (Z.land b2 63) 6) (Z.land b3 63))) in
                if is_cont b1 && is_cont b2 && is_cont b3
                   && (65536 <=? c) && (c <=? 1114111)
                then cons c <$> utf8_decode n' r3
                else None
            | _ => None
            end
          else None
      end
  end.

(** Code units of two bytes. *)
Fixpoint units16 (little : bool) (n : nat) (b : list Z) : option (list Z) :=
  match n with
  | O => match b with [] => Some [] | _ => None end
  | S n' =>
      match b with
      | [] => Some []
      | b0 :: b1 :: r =>
          cons (if little then b0 + 256 * b1 else 256 * b0 + b1)
            <$> units16 little n' r
      | _ => None
      end
  end.

Fixpoint pair_surrogates (u : list Z) : list Z :=
  match u with
  | [] => []
  | hi :: r =>
      match r with
      | lo :: r' =>
          if is_high_surrogate hi && is_low_surrogate lo
          then join_surrogates hi lo :: pair_surrogates r'
          else hi :: pair_surrogates r
      | [] => [hi]
      end
  end.

Definition utf16_decode (little : bool) (b : list Z) : option (list Z) :=
  pair_surrogates <$> units16 little (length b) b.

Fixpoint utf32_decode (little : bool) (n : nat) (b : list Z)
  : option (list Z) :=
  match n with
  | O => match b with [] => Some [] | _ => None end
  | S n' =>
      match b with
      | [] => Some []
      | b0 :: b1 :: b2 :: b3 :: r =>
          let c := if little
                   then b0 + 256 * (b1 + 256 * (b2 + 256 * b3))
                   else b3 + 256 * (b2 + 256 * (b1 + 256 * b0)) in
          if c <=? 1114111 then cons c <$> utf32_decode little n' r else None
      | _ => None
      end
  end.

Inductive encoding : Type :=
  | Utf8 | Utf8Sig | Utf16 | Utf16LE | Utf16BE | Utf32 | Utf32LE | Utf32BE.

Definition starts_with (p s : list Z) : bool :=
  bool_decide (take (length p) s = p).

Definition detect_encoding (b : list Z) : encoding :=
  if starts_with [0; 0; 254; 255] b || starts_with [255; 254; 0; 0] b
  then Utf32
  else if starts_with [254; 255] b || starts_with [255; 254] b then Utf16
  else if starts_with [239; 187; 191] b then Utf8Sig
  else
    match b with
    | b0 :: b1 :: b2 :: b3 :: _ =>
        if b0 =? 0 then (if b1 =? 0 then Utf32BE else Utf16BE)
        else if b1 =? 0
             then (if (b2 =? 0) && (b3 =? 0) then Utf32LE else Utf16LE)
             else Utf8
    | [b0; b1] =>
        if b0 =? 0 then Utf16BE else if b1 =? 0 then Utf16LE else Utf8
    | _ => Utf8
    end.

(** [b.decode(enc, 'surrogatepass')] *)
Definition decode (enc : encoding) (b : list Z) : option (list Z) :=
  match enc with
  | Utf8 => utf8_decode (length b) b
  | Utf8Sig =>
      let b' := if starts_with [239; 187; 191] b then drop 3 b else b in
      utf8_decode (length b') b'
  | Utf16LE => utf16_decode true b
  | Utf16BE => utf16_decode false b
  | Utf16 =>
      if starts_with [255; 254] b then utf16_decode true (drop 2 b)
      else if starts_with [254; 255] b then utf16_decode false (drop 2 b)
      else utf16_decode true b
  | Utf32LE => utf32_decode true (length b) b
  | Utf32BE => utf32_decode false (length b) b
  | Utf32 =>
      if starts_with [255; 254; 0; 0] b
      then utf32_decode true (length b) (drop 4 b)
      else if starts_with [0; 0; 254; 255] b
      then utf32_decode false (length b) (drop 4 b)
      else utf32_decode true (length b) b
  end.

(** *** json *)

Definition is_ws (c : Z) : bool :=
  (c =? 32) || (c =? 9) || (c =? 10) || (c =? 13).

Fixpoint skip_ws (s : list Z) : list Z :=
  match s with
  | c :: r => if is_ws c then skip_ws r else s
  | [] => []
  end.

Definition is_digit (c : Z) : bool := (48 <=? c) && (c <=? 57).

Fixpoint take_digits (s : list Z) : list Z * list Z :=
  match s with
  | c :: r =>
      if is_digit c
      then let '(ds, r') := take_digits r in (c :: ds, r')
      else ([], s)
  | [] => ([], [])
  end.

Definition digits_value (ds : list Z) : Z :=
  fold_left (fun a d => 10 * a + (d - 48)) ds 0.

(** The number at the head of [s]: an integer part, then a fraction and
    an exponent where they are complete. *)
Definition match_number (s : list Z) : option (pyval * list Z) :=
  let '(negative, s1) :=
    match s with
    | c :: r => if c =? 45 then (true, r) else (false, s)
    | [] => (false, s)
    end in
  '(int_digits, s2) ←
    match s1 with
    | c :: r =>
        if (49 <=? c) && (c <=? 57)
        then let '(ds, r') := take_digits r in Some (c :: ds, r')
        else if c =? 48 then Some ([c], r)
        else None
    | [] => None
    end;
  let '(frac_digits, s3) :=
    match s2 with
    | p :: d :: r =>
        if (p =? 46) && is_digit d then take_digits (d :: r) else ([], s2)
    | _ => ([], s2)
    end in
  let '(exponent, s4) :=
    match s3 with
    | e :: r =>
        if (e =? 101) || (e =? 69) then
          let '(exp_negative, r1) :=
            match r with
            | c :: r' =>
                if c =? 45 then (true, r')
                else if c =? 43 then (false, r')
                else (false, r)
            | [] => (false, r)
            end in
          let '(ds, r2) := take_digits r1 in
          match ds with
          | [] => (None, s3)
          | _ => (Some (if exp_negative : bool
                        then - digits_value ds else digits_value ds), r2)
          end
        else (None, s3)
    | [] => (None, s3)
    end in
  let sign := if negative : bool then -1 else 1 in
  match frac_digits, exponent with
  | [], None => Some (PInt (sign * digits_value int_digits), s4)
  | _, _ =>
      Some (PFloat (FDec (sign * digits_value (int_digits ++ frac_digits))
                      (default 0 exponent - Z.of_nat (length frac_digits))),
            s4)
  end.

Definition hex_value (c : Z) : option Z :=
  if is_digit c then Some (c - 48)
  else if (97 <=? c) && (c <=? 102) then Some (c - 87)
  else if (65 <=? c) && (c <=? 70) then Some (c - 55)
  else None.

Definition hex4 (s : list Z) : option (Z * list Z) :=
  match s with
  | a :: b :: c :: d :: r =>
      a ← hex_value a; b ← hex_value b; c ← hex_value c; d ← hex_value d;
      Some (4096 * a + 256 * b + 16 * c + d, r)
  | _ => None
  end.

Definition unescape (c : Z) : option Z :=
  if c =? 34 then Some 34
  else if c =? 92 then Some 92
  else if c =? 47 then Some 47
  else if c =? 98 then Some 8
  else if c =? 102 then Some 12
  else if c =? 110 then Some 10
  else if c =? 114 then Some 13
  else if c =? 116 then Some 9
  else None.

(** The string whose opening quote has been read: its characters and the
    text after the closing quote. *)
Fixpoint scanstring (n : nat) (s acc : list Z) : option (list Z * list Z) :=
  match n with
  | O => None
  | S n' =>
      match s with
      | [] => None
      | c :: r =>
          if c =? 34 then Some (acc, r)
          else if c =? 92 then
            match r with
            | [] => None
            | e :: r1 =>
                if e =? 117 then
                  '(u, r2) ← hex4 r1;
                  if is_high_surrogate u && starts_with [92; 117] r2 then
                    '(u2, r4) ← hex4 (drop 2 r2);
                    if is_low_surrogate u2
                    then scanstring n' r4 (acc ++ [join_surrogates u u2])
                    else scanstring n' r2 (acc ++ [u])
                  else scanstring n' r2 (acc ++ [u])
                else
                  u ← unescape e;
                  scanstring n' r1 (acc ++ [u])
            end
          else if c <? 32 then None
          else scanstring n' r (acc ++ [c])
      end
  end.

Section Containers.
Variable scan : list Z -> option (pyval * list Z).

(** The elements of an array, [s] standing at an element. *)
Fixpoint parse_array (n : nat) (s : list Z) (acc : list pyval)
  : option (pyval * list Z) :=
  match n with
  | O => None
  | S n' =>
      '(v, r) ← scan s;
      match skip_ws r with
      | c :: r' =>
          if c =? 93 then Some (PList (acc ++ [v]), r')
          else if c =? 44 then parse_array n' (skip_ws r') (acc ++ [v])
          else None
      | [] => None
      end
  end.

(** The members of an object, [s] standing at a key. *)
Fixpoint parse_object (n : nat) (s : list Z) (acc : list (list Z * pyval))
  : option (pyval * list Z) :=
  match n with
  | O => None
  | S n' =>
      match s with
      | q :: r =>
          if q =? 34 then
            '(key, r1) ← scanstring (length r) r [];
            match skip_ws r1 with
            | colon :: r2 =>
                if colon =? 58 then
                  '(v, r3) ← scan (skip_ws r2);
                  let acc' := dict_set key v acc in
                  match skip_ws r3 with
                  | c :: r4 =>
                      if c =? 125 then Some (PDict acc', r4)
                      else if c =? 44
                      then parse_object n' (skip_ws r4) acc'
                      else None
                  | [] => None
                  end
                else None
            | [] => None
            end
          else None
      | [] => None
      end
  end.
End Containers.

Fixpoint scan_once (fuel : nat) (s : list Z) : option (pyval * list Z) :=
  match fuel with
  | O => None
  | S fuel' =>
      match s with
      | [] => None
      | c :: r =>
          if c =? 34 then
            '(str, r') ← scanstring (length r) r [];
            Some (PStr str, r')
          else if c =? 123 then
            let r' := skip_ws r in
            if starts_with [125] r' then Some (PDict [], drop 1 r')
            else parse_object (scan_once fuel') (length r') r' []
          else if c =? 91 then
            let r' := skip_ws r in
            if starts_with [93] r' then Some (PList [], drop 1 r')
            else parse_array (scan_once fuel') (length r') r' []
          else if starts_with (codes "null") s then Some (PNone, drop 4 s)
          else if starts_with (codes "true") s
          then Some (PBool true, drop 4 s)
          else if starts_with (codes "false") s
          then Some (PBool false, drop 5 s)
          else if starts_with (codes "NaN") s
          then Some (PFloat FNan, drop 3 s)
          else if starts_with (codes "Infinity") s
          then Some (PFloat (FInf false), drop 8 s)
          else if starts_with (codes "-Infinity") s
          then Some (PFloat (FInf true), drop 9 s)
          else match_number s
      end
  end.

(** [JSONDecoder.decode]: one value between optional whitespace. *)
Definition decode_text (s : list Z) : option pyval :=
  '(v, r) ← scan_once (S (length s)) (skip_ws s);
  match skip_ws r with
  | [] => Some v
  | _ => None
  end.

Definition json_loads (b : list Z) : result pyval :=
  match decode (detect_encoding b) b with
  | None => Raise UnicodeDecodeError
  | Some text =>
      match decode_text text with
      | Some v => Ret v
      | None => Raise JSONDecodeError
      end
  end.

Definition float_sub_int (f : pyfloat) (n : Z) : pyfloat :=
  match f with
  | FDec m e =>
      if 0 <=? e then FDec (m * 10 ^ e - n) 0 else FDec (m - n * 10 ^ (- e)) e
  | _ => f
  end.

Definition float_gt_zero (f : pyfloat) : bool :=
  match f with
  | FDec m _ => 0 <? m
  | FInf negative => negb negative
  | FNan => false
  end.

Definition lib : PyLib :=
  Build_PyLib urlsafe_b64decode json_loads float_sub_int float_gt_zero.

End CPython.

(** ** String methods used by cli.py *)

(** [c.isspace()] on U+0000..U+00FF. *)
Definition isspace (c : ascii) : bool :=
  let n := code c in
  ((9 <=? n) && (n <=? 13)) || ((28 <=? n) && (n <=? 32))
  || (n =? 133) || (n =? 160).

Fixpoint lstrip (s : string) : string :=
  match s with
  | EmptyString => EmptyString
  | String c r => if isspace c then lstrip r else s
  end.

Fixpoint rstrip (s : string) : string :=
  match s with
  | EmptyString => EmptyString
  | String c r =>
      match rstrip r with
      | EmptyString => if isspace c then EmptyString else String c EmptyString
      | r' => String c r'
      end
  end.

(** [s.strip()] *)
Definition strip (s : string) : string := rstrip (lstrip s).

(** [c.lower()] on U+0000..U+00FF. *)
Definition lower_char (c : ascii) : ascii :=
  let n := code c in
  if ((65 <=? n) && (n <=? 90))
     || ((192 <=? n) && (n <=? 222) && negb (n =? 215))
  then ascii_of_N (Z.to_N (n + 32))
  else c.

Fixpoint lower (s : string) : string :=
  match s with
  | EmptyString => EmptyString
  | String c r => String (lower_char c) (lower r)
  end.

(** [s.startswith(p)] *)
Definition startswith (s p : string) : bool := String.prefix p s.

(** [s.split(' ', 1)[1]] *)
Fixpoint after_first_space (s : string) : result string :=
  match s with
  | EmptyString => Raise IndexError
  | String c r => if Ascii.eqb c " " then Ret r else after_first_space r
  end.

(** ** cli.py: data *)

Local Open Scope string_scope.

(** [CLIConfig] of config.py. *)
Record CLIConfig : Type := mkConfig {
  api_server_url : string;
  session_token : string;
  owner_id : string;
  email : string;
  local_db_path : string;
  enable_offline : bool;
  max_offline_days : Z;
  auto_sync_on_start : bool;
}.

(** The field defaults of [CLIConfig]; [db] is the path under the home
    directory. *)
Definition default_config (db : string) : CLIConfig :=
  {| api_server_url := "http://localhost:9000";
     session_token := "";
     owner_id := "";
     email := "";
     local_db_path := db;
     enable_offline := true;
     max_offline_days := 7;
     auto_sync_on_start := false |}.

(** The three assignments [config.session_token = t], [config.owner_id = o],
    [config.email = e]. *)
Definition set_identity (c : CLIConfig) (t o e : string) : CLIConfig :=
  {| api_server_url := api_server_url c;
     session_token := t;
     owner_id := o;
     email := e;
     local_db_path := local_db_path c;
     enable_offline := enable_offline c;
     max_offline_days := max_offline_days c;
     auto_sync_on_start := auto_sync_on_start c |}.

(** The session identity of the specification: token, owner id, email. *)
Definition identity (c : CLIConfig) : string * string * string :=
  (session_token c, owner_id c, email c).

(** The part of a [ZylchCLI] object the dispatcher reads and writes:
    [self.config], the token last handed to [self.api_client], and the
    contents of the configuration file ([None] while it does not exist). *)
Record ZylchCLI : Type := mkCLI {
  config : CLIConfig;
  client_token : string;
  config_file : option CLIConfig;
}.

(** The reply of [send_chat_message], read with [response.get]. *)
Record chat_response : Type := mkResponse {
  resp_session_id : option string;
  resp_response : option string;
  resp_metadata : option string;
}.

Record cache_stats : Type := mkStats {
  cached_threads : Z;
  cached_events : Z;
  cached_contacts : Z;
  pending_operations : Z;
}.

(** The sub-flows of [connect], which only talk to the server and the
    user and leave [self.config] and the conversation alone. *)
Inductive connect_flow : Type :=
  | DisconnectAllServices
  | ShowConnectionStatus
  | ConnectGoogle
  | ConnectMicrosoft
  | ConnectAnthropic.

(** What [console.print] shows, one constructor per message. *)
Inductive message : Type :=
  | LoginPanel
  | LoginTimeout
  | LoginFailed (error : string)
  | LoggedInAs (email : string)
  | OwnerIdLine (owner_id : string)
  | LoginNoToken
  | LoginError (e : exn)
  | LoggedOut
  | StatusPanel (c : CLIConfig)
  | CacheStats (s : cache_stats)
  | NotLoggedInRunLogin
  | UnknownService (service : string)
  | SupportedServices
  | BlankLine
  | Goodbye
  | GoodbyeInterrupted
  | NewConversation
  | NotLoggedInUseLogin
  | Thinking
  | Reply (text : string)
  | Metadata (m : string)
  | SessionExpired
  | ErrorMessage (e : exn)
  | ChatError (e : exn).

(** The observable actions of a dispatch cycle. *)
Inductive event : Type :=
  | Print (m : message)
  | BrowserLogin (server_url : string) (callback_port : Z)
  | SaveConfig (c : CLIConfig)
  | SetToken (token : string)
  | ApiLogout
  | ApiSendChat (message : string) (session_id : option string)
  | GetCacheStats
  | RunConnectFlow (f : connect_flow).

(** Calls that reach the remote API collaborator. *)
Definition is_remote_call (e : event) : bool :=
  match e with
  | ApiLogout | ApiSendChat _ _ | RunConnectFlow _ => true
  | _ => false
  end.

(** The collaborators of one dispatch cycle: the clock, the logger, the
    OAuth handler, the API client and the local storage, none of which is
    among the sources.  Each call returns or raises. *)
Record world : Type := mkWorld {
  now : Z;
  debug_logging : bool;
  initiate_browser_login : string -> Z -> result (option (gmap string string));
  api_logout : result ();
  send_chat_message : string -> option string -> result chat_response;
  get_cache_stats : cache_stats;
}.

(** ** cli.py: the methods of [ZylchCLI] *)

(** [bool(s)] for an optional string: [None] and [''] are false. *)
Definition truthy (s : option string) : bool :=
  match s with
  | Some s => negb (bool_decide (s = ""))
  | None => false
  end.

(** [save_config(self.config)]; writing the file is taken to succeed. *)
Definition save_config (self : ZylchCLI) : ZylchCLI :=
  {| config := config self;
     client_token := client_token self;
     config_file := Some (config self) |}.

Definition with_config (self : ZylchCLI) (c : CLIConfig) : ZylchCLI :=
  {| config := c;
     client_token := client_token self;
     config_file := config_file self |}.

(** [self.api_client.set_token(token)] *)
Definition set_token (self : ZylchCLI) (token : string) : ZylchCLI :=
  {| config := config self;
     client_token := token;
     config_file := config_file self |}.

(** The [try] block of [login]. *)
Definition login_body (w : world) (self : ZylchCLI)
  : result (ZylchCLI * list event) :=
  result ← initiate_browser_login w (api_server_url (config self)) 8765;
  match result with
  | None => Ret (self, [Print LoginTimeout])
  | Some result =>
      match result !! "error" with
      | Some error => Ret (self, [Print (LoginFailed error)])
      | None =>
          let token := result !! "token" in
          let owner := result !! "owner_id" in
          let mail := result !! "email" in
          if truthy token then
            let token := default "" token in
            let self := with_config self
                          (set_identity (config self) token
                             (default "" owner) (default "" mail)) in
            let self := save_config self in
            let self := set_token self token in
            Ret (self,
                 [SaveConfig (config self); SetToken token;
                  Print (LoggedInAs (email (config self)));
                  Print (OwnerIdLine (owner_id (config self)))])
          else Ret (self, [Print LoginNoToken])
      end
  end.

Definition login (w : world) (self : ZylchCLI) : ZylchCLI * list event :=
  let '(self', events) :=
    try_except (login_body w self) (fun e => (self, [Print (LoginError e)])) in
  (self',
   Print LoginPanel :: BrowserLogin (api_server_url (config self)) 8765
     :: events).

(** [logout]: the bare [except] swallows whatever [api_client.logout()]
    raises. *)
Definition logout (w : world) (self : ZylchCLI) : ZylchCLI * list event :=
  let _ := try_except (api_logout w) (fun _ => ()) in
  let self := with_config self (set_identity (config self) "" "" "") in
  let self := save_config self in
  (self, [ApiLogout; SaveConfig (config self); Print LoggedOut]).

(** [status]; the storage call is taken to return. *)
Definition status (w : world) (self : ZylchCLI) : list event :=
  Print (StatusPanel (config self))
    :: (if decide (session_token (config self) = "") then []
        else [GetCacheStats; Print (CacheStats (get_cache_stats w))]).

(** ** cli.py: the loop of [chat] *)

Inductive control : Type := Continue | Break.

(** The state of the loop: the object and the local [session_id]. *)
Record session : Type := mkSession {
  cli : ZylchCLI;
  session_id : option string;
}.

Definition with_cli (st : session) (self : ZylchCLI) : session :=
  {| cli := self; session_id := session_id st |}.

Section Cli.
Context {lib : PyLib}.

(** [check_auth(verbose=False)] *)
Definition check_auth (w : world) (self : ZylchCLI) : result bool :=
  if decide (session_token (config self) = "") then Ret false
  else
    '(is_valid, _) ← check_token_status (now w) (session_token (config self));
    if negb is_valid then Ret false else Ret true.

(** [connect(service, reset)] *)
Definition connect (w : world) (self : ZylchCLI)
    (service : option string) (reset : bool) : result (list event) :=
  authenticated ← check_auth w self;
  if negb authenticated then Ret [Print NotLoggedInRunLogin]
  else if reset then Ret [RunConnectFlow DisconnectAllServices]
  else if negb (truthy service) then Ret [RunConnectFlow ShowConnectionStatus]
  else
    let service_lower := lower (default "" service) in
    if decide (service_lower = "google") then Ret [RunConnectFlow ConnectGoogle]
    else if decide (service_lower = "microsoft")
    then Ret [RunConnectFlow ConnectMicrosoft]
    else if decide (service_lower = "anthropic")
    then Ret [RunConnectFlow ConnectAnthropic]
    else Ret [Print (UnknownService (default "" service));
              Print SupportedServices].

(** A [connect] call of the loop; an exception it lets through reaches the
    handler around the loop, which ends [chat]. *)
Definition run_connect (w : world) (st : session)
    (service : option string) (reset : bool)
  : session * list event * control :=
  match connect w (cli st) service reset with
  | Ret events => (st, events, Continue)
  | Raise e => (st, [Print (ChatError e)], Break)
  end.

(** The [try] block that sends the message, with its two handlers. *)
Definition send (w : world) (st : session) (user_input : string)
  : session * list event * control :=
  let call := [Print Thinking; ApiSendChat user_input (session_id st)] in
  match send_chat_message w user_input (session_id st) with
  | Ret response =>
      let st' := {| cli := cli st;
                    session_id := resp_session_id response |} in
      let assistant_response := default "" (resp_response response) in
      let metadata := resp_metadata response in
      (st',
       (call ++ [Print (Reply assistant_response)]
          ++ (if truthy metadata && debug_logging w
              then [Print (Metadata (default "" metadata))] else []))%list,
       Continue)
  | Raise ZylchAuthError => (st, (call ++ [Print SessionExpired])%list, Continue)
  | Raise (ZylchAPIError msg) =>
      (st, (call ++ [Print (ErrorMessage (ZylchAPIError msg))])%list, Continue)
  | Raise e => (st, (call ++ [Print (ChatError e)])%list, Break)
  end.

(** One iteration of [while True], from the prompt on.  [None] is a
    [KeyboardInterrupt] or [EOFError] at the prompt. *)
Definition chat_cycle (w : world) (st : session) (input : option string)
  : session * list event * control :=
  match input with
  | None => (st, [Print GoodbyeInterrupted], Break)
  | Some user_input =>
      if decide (strip user_input = "") then (st, [], Continue)
      else
        let cmd := lower (strip user_input) in
        if decide (cmd ∈ ["/quit"; "/exit"; "/q"])
        then (st, [Print Goodbye], Break)
        else if decide (cmd = "/login") then
          let '(self, events) := login w (cli st) in
          (with_cli st self, events, Continue)
        else if decide (cmd = "/logout") then
          let '(self, events) := logout w (cli st) in
          (with_cli st self, events, Continue)
        else if decide (cmd = "/status")
        then (st, status w (cli st), Continue)
        else if decide (cmd = "/new") then
          ({| cli := cli st; session_id := None |},
           [Print NewConversation], Continue)
        else if decide (cmd = "/connect") then run_connect w st None false
        else if decide (cmd = "/connect anthropic")
        then run_connect w st (Some "anthropic") false
        else if decide (cmd = "/connect google")
        then run_connect w st (Some "google") false
        else if decide (cmd = "/connect microsoft")
        then run_connect w st (Some "microsoft") false
        else if decide (cmd = "/connect --reset")
        then run_connect w st None true
        else if startswith cmd "/connect " then
          match after_first_space cmd with
          | Ret rest => run_connect w st (Some (strip rest)) false
          | Raise e => (st, [Print (ChatError e)], Break)
          end
        else if decide (session_token (config (cli st)) = "")
        then (st, [Print NotLoggedInUseLogin], Continue)
        else send w st user_input
  end.

(** [chat] run on a script of inputs, each with the collaborators'
    behaviour during its cycle; it stops at the first [Break]. *)
Fixpoint chat_loop (script : list (world * option string)) (st : session)
  : session * list event :=
  match script with
  | [] => (st, [])
  | (w, input) :: rest =>
      let '(st', events, ctl) := chat_cycle w st input in
      match ctl with
      | Continue =>
          let '(st'', events') := chat_loop rest st' in
          (st'', Print BlankLine :: (events ++ events')%list)
      | Break => (st', Print BlankLine :: events)
      end
  end.

End Cli.

(** ** The specification's vocabulary *)

(** Section 4.1, [parseExpiry], as the specification words it: exactly
    three segments; segment 2 padded with [=] to a multiple of four
    characters and base64url-decoded; the [exp] claim of the JSON payload if
    present, else [None]; every failure is [None]. *)
Definition restore_padding (segment : string) : string :=
  segment +:+ str_repeat "=" ((4 - String.length segment mod 4) mod 4)%nat.

Definition exp_claim (payload : pyval) : pyval :=
  match payload with
  | PDict members => default PNone (dict_get (codes "exp") members)
  | _ => PNone
  end.

Definition parseExpiry_spec {lib : PyLib} (token : string) : pyval :=
  match split "." token with
  | [_; segment2; _] =>
      match urlsafe_b64decode (restore_padding segment2) with
      | Raise _ => PNone
      | Ret decoded =>
          match json_loads decoded with
          | Raise _ => PNone
          | Ret payload => exp_claim payload
          end
      end
  | _ => PNone
  end.

(** Section 6: the commands the dispatcher intercepts, on the trimmed and
    lower-cased line. *)
Definition is_local_command (cmd : string) : bool :=
  bool_decide (cmd ∈ ["/quit"; "/exit"; "/q"; "/login"; "/logout";
                      "/status"; "/new"; "/connect"])
  || startswith cmd "/connect ".

(** The line begins with the command prefix. *)
Definition is_slash_command (user_input : string) : bool :=
  startswith (strip user_input) "/".

(** Section 3: all three identity fields are empty or the token is not. *)
Definition identity_invariant (c : CLIConfig) : Prop :=
  identity c = ("", "", "") \/ session_token c <> "".

(** The outcomes of the OAuth flow that are not a login: an exception, a
    timeout, an error result, a result without a token. *)
Definition login_failed (outcome : result (option (gmap string string)))
  : Prop :=
  match outcome with
  | Raise _ => True
  | Ret None => True
  | Ret (Some r) => is_Some (r !! "error") \/ truthy (r !! "token") = false
  end.

Definition events_of (r : session * list event * control) : list event :=
  r.1.2.

Definition state_of (r : session * list event * control) : session :=
  r.1.1.

Definition control_of (r : session * list event * control) : control :=
  r.2.

(** ** Concrete scenarios *)

Module Scenario.

(** A token whose payload is [{"exp":"x"}]. *)
Definition token_exp_string : string := "a.eyJleHAiOiJ4In0.b".

(** A token whose payload is [{"exp":1}]: expired since 1970. *)
Definition token_expired : string := "a.eyJleHAiOjF9.b".

(** A token without a payload to parse. *)
Definition token_opaque : string := "tok".

Definition clock : Z := 1700000000.

Definition echo (message : string) (sid : option string)
  : result chat_response :=
  Ret {| resp_session_id := Some "s1";
         resp_response := Some message;
         resp_metadata := None |}.

(** A server that answers every message. *)
Definition world_up : world :=
  {| now := clock;
     debug_logging := false;
     initiate_browser_login := fun _ _ => Ret None;
     api_logout := Ret ();
     send_chat_message := echo;
     get_cache_stats := mkStats 0 0 0 0 |}.

(** A server that rejects the session. *)
Definition world_rejecting : world :=
  {| now := clock;
     debug_logging := false;
     initiate_browser_login := fun _ _ => Ret None;
     api_logout := Raise ZylchAuthError;
     send_chat_message := fun _ _ => Raise ZylchAuthError;
     get_cache_stats := mkStats 0 0 0 0 |}.

(** An OAuth flow that succeeds. *)
Definition world_login_ok : world :=
  {| now := clock;
     debug_logging := false;
     initiate_browser_login := fun _ _ =>
       Ret (Some (<["token" := "tok"]> (<["email" := "a@b.c"]>
                   (<["owner_id" := "u1"]> ∅))));
     api_logout := Ret ();
     send_chat_message := echo;
     get_cache_stats := mkStats 0 0 0 0 |}.

Definition logged_in (token : string) : session :=
  {| cli := {| config := set_identity (default_config "db") token "u1" "a@b.c";
               client_token := token;
               config_file := None |};
     session_id := None |}.

Definition logged_out : session :=
  {| cli := {| config := default_config "db";
               client_token := "";
               config_file := None |};
     session_id := Some "s0" |}.

End Scenario.

(** ** Further vocabulary *)

(** [c in s] *)
Fixpoint contains (c : ascii) (s : string) : bool :=
  match s with
  | EmptyString => false
  | String c' r => Ascii.eqb c' c || contains c r
  end.

(** The trimmed, lower-cased line the dispatcher compares, [""] at the end
    of the input. *)
Definition command_of (input : option string) : string :=
  match input with
  | Some user_input => lower (strip user_input)
  | None => ""
  end.

(** The forms of [/connect]. *)
Definition is_connect_command (cmd : string) : bool :=
  bool_decide (cmd = "/connect") || startswith cmd "/connect ".

(** While a token is stored, the API client holds that token. *)
Definition client_in_sync (self : ZylchCLI) : Prop :=
  session_token (config self) <> "" ->
  client_token self = session_token (config self).

(** Events that write the session: the configuration file or the client's
    token. *)
Definition is_session_write (e : event) : bool :=
  match e with
  | SaveConfig _ | SetToken _ => true
  | _ => false
  end.

(** What a session without a token may do: anything but send a message,
    run a connect flow, start the OAuth flow or set the client's token. *)
Definition allowed_logged_out (e : event) : Prop :=
  match e with
  | ApiSendChat _ _ | RunConnectFlow _ | SetToken _ | BrowserLogin _ _ =>
      False
  | _ => True
  end.

(** What [connect] does for a named service once [check_auth] holds. *)
Definition connect_service_events (service : string) : list event :=
  if decide (service = "google") then [RunConnectFlow ConnectGoogle]
  else if decide (service = "microsoft") then [RunConnectFlow ConnectMicrosoft]
  else if decide (service = "anthropic") then [RunConnectFlow ConnectAnthropic]
  else [Print (UnknownService service); Print SupportedServices].

(** Every character is white space. *)
Fixpoint all_space (s : string) : bool :=
  match s with
  | EmptyString => true
  | String c r => isspace c && all_space r
  end.

Section CycleCases.
Context {lib : PyLib}.

(** The branches of one iteration of the loop. *)
Inductive cycle_case (w : world) (st : session) (user_input : string)
  : session * list event * control -> Prop :=
  | case_blank :
      strip user_input = "" ->
      cycle_case w st user_input (st, [], Continue)
  | case_quit :
      lower (strip user_input) ∈ ["/quit"; "/exit"; "/q"] ->
      cycle_case w st user_input (st, [Print Goodbye], Break)
  | case_login :
      lower (strip user_input) = "/login" ->
      cycle_case w st user_input
        (with_cli st (login w (cli st)).1, (login w (cli st)).2, Continue)
  | case_logout :
      lower (strip user_input) = "/logout" ->
      cycle_case w st user_input
        (with_cli st (logout w (cli st)).1, (logout w (cli st)).2, Continue)
  | case_status :
      lower (strip user_input) = "/status" ->
      cycle_case w st user_input (st, status w (cli st), Continue)
  | case_new :
      lower (strip user_input) = "/new" ->
      cycle_case w st user_input
        ({| cli := cli st; session_id := None |}, [Print NewConversation],
         Continue)
  | case_connect service reset :
      is_connect_command (lower (strip user_input)) = true ->
      cycle_case w st user_input (run_connect w st service reset)
  | case_not_logged_in :
      strip user_input <> "" ->
      is_local_command (lower (strip user_input)) = false ->
      session_token (config (cli st)) = "" ->
      cycle_case w st user_input (st, [Print NotLoggedInUseLogin], Continue)
  | case_send :
      strip user_input <> "" ->
      is_local_command (lower (strip user_input)) = false ->
      session_token (config (cli st)) <> "" ->
      cycle_case w st user_input (send w st user_input).

End CycleCases.

(** ** cli.py: start-up and the service integrations

    The API client, the OAuth handler, the prompts and the environment are
    not among the sources.  One [services] record holds what each of them
    answers during one call of the functions below; a status reply is read
    through the truth values of its [get] calls. *)

Record anthropic_status : Type := mkAnthropicStatus {
  has_key : bool;
}.

Record google_status : Type := mkGoogleStatus {
  has_credentials : bool;
  expired : bool;
  google_email : option string;
}.

Record save_result : Type := mkSaveResult {
  success : bool;
  save_error : option string;
}.

(** The questions put through [Confirm.ask]. *)
Inductive question : Type :=
  | AskReplaceKey
  | AskUseEnvKey
  | AskContinueAnyway
  | AskDisconnectAll.

Record services : Type := mkServices {
  health_check : result (gmap string string);
  get_anthropic_status : result anthropic_status;
  get_google_status : result google_status;
  revoke_anthropic : result ();
  revoke_google : result ();
  set_anthropic_key : string -> result save_result;
  initiate_service_connect :
    string -> string -> string -> Z -> result (option (gmap string string));
  confirm : question -> bool;
  prompt_api_key : option string;
  environ_anthropic_key : option string;
}.

Inductive service_message : Type :=
  | ServerRunning
  | ServerUnhealthy
  | CannotReachServer (e : exn)
  | MakeSureServerRuns
  | ServerDirectoryHint
  | ServerCommandHint
  | ChatPanel
  | StatusHeader
  | StartupNotLoggedIn
  | StartupSessionExpired
  | StartupLoggedInAs (email : string)
  | StartupLoggedIn
  | AnthropicConfigured
  | AnthropicNotConfigured
  | GoogleTokenExpired
  | GooglePermissions
  | GoogleNotConnected
  | EmptyLine
  | IntegrationsPanel
  | StatusAnthropicConfigured
  | StatusAnthropicNotConfigured
  | StatusGoogleExpired (email : string)
  | StatusGoogleConnected (email : string)
  | StatusGoogleNotConnected
  | StatusMicrosoftNotConnected
  | CommandsHeader
  | CommandConnectAnthropic
  | CommandConnectGoogle
  | CommandConnectMicrosoft
  | CommandConnectReset
  | ServicePanel (service : string)
  | AlreadyConnectedAs (email : string)
  | ReconnectHint
  | ServiceTimeout (service : string)
  | ServiceTimeoutHint
  | ServiceFailed (service error : string)
  | ServiceConnected (service : string)
  | ConnectedAs (email : string)
  | CanNowSync (service : string)
  | ServiceError (service : string) (e : exn)
  | DisconnectPanel
  | Cancelled
  | AnthropicKeyDeleted
  | AnthropicWasNotConfigured
  | AnthropicDeleteError (e : exn)
  | GoogleDisconnected
  | GoogleWasNotConnected
  | GoogleDisconnectError (e : exn)
  | AllServicesDisconnected
  | AnthropicPanel
  | KeyAlreadyConfigured
  | FoundEnvironmentKey (masked_key : string)
  | NoKeyProvided
  | KeyFormatWarning
  | KeySaved
  | CanNowChat
  | KeySaveFailed (error : string)
  | KeySaveError (e : exn).

Inductive service_event : Type :=
  | Say (m : service_message)
  | CallHealthCheck
  | CallGetAnthropicStatus
  | CallGetGoogleStatus
  | CallRevokeAnthropic
  | CallRevokeGoogle
  | CallSetAnthropicKey (api_key : string)
  | CallServiceConnect (server_url service auth_token : string)
      (callback_port : Z)
  | Ask (q : question)
  | AskApiKey.

(** Calls that change something on the server or start an OAuth flow. *)
Definition is_service_write (e : service_event) : bool :=
  match e with
  | CallRevokeAnthropic | CallRevokeGoogle | CallSetAnthropicKey _
  | CallServiceConnect _ _ _ _ => true
  | _ => false
  end.

(** [check_server] *)
Definition check_server (sv : services) : bool * list service_event :=
  match health_check sv with
  | Ret health =>
      if decide (health !! "status" = Some "healthy")
      then (true, [CallHealthCheck; Say ServerRunning])
      else (false, [CallHealthCheck; Say ServerUnhealthy])
  | Raise e =>
      (false,
       [CallHealthCheck; Say (CannotReachServer e); Say MakeSureServerRuns;
        Say ServerDirectoryHint; Say ServerCommandHint])
  end.

(** The Anthropic part of [_show_startup_status]. *)
Definition startup_anthropic (sv : services) : list service_event :=
  CallGetAnthropicStatus
    :: match get_anthropic_status sv with
       | Ret anthropic =>
           if has_key anthropic then [Say AnthropicConfigured]
           else [Say AnthropicNotConfigured]
       | Raise _ => [Say AnthropicNotConfigured]
       end.

(** The Google part of [_show_startup_status]. *)
Definition startup_google (sv : services) : list service_event :=
  CallGetGoogleStatus
    :: match get_google_status sv with
       | Ret google =>
           if has_credentials google then
             if expired google then [Say GoogleTokenExpired]
             else [Say GooglePermissions]
           else [Say GoogleNotConnected]
       | Raise _ => [Say GoogleNotConnected]
       end.

(** [_show_connection_status] *)
Definition show_connection_status (sv : services) : list service_event :=
  ([Say IntegrationsPanel; CallGetAnthropicStatus]
   ++ match get_anthropic_status sv with
      | Ret anthropic =>
          if has_key anthropic then [Say StatusAnthropicConfigured]
          else [Say StatusAnthropicNotConfigured]
      | Raise _ => [Say StatusAnthropicNotConfigured]
      end
   ++ [CallGetGoogleStatus]
   ++ match get_google_status sv with
      | Ret google =>
          if has_credentials google then
            let email := default "Unknown" (google_email google) in
            if expired google then [Say (StatusGoogleExpired email)]
            else [Say (StatusGoogleConnected email)]
          else [Say StatusGoogleNotConnected]
      | Raise _ => [Say StatusGoogleNotConnected]
      end
   ++ [Say StatusMicrosoftNotConnected; Say CommandsHeader;
       Say CommandConnectAnthropic; Say CommandConnectGoogle;
       Say CommandConnectMicrosoft; Say CommandConnectReset])%list.

(** The rest of [_connect_service] once no connection stands in the way. *)
Definition service_oauth (sv : services) (self : ZylchCLI) (service : string)
  : list service_event :=
  let server_url := api_server_url (config self) in
  let auth_token := session_token (config self) in
  CallServiceConnect server_url service auth_token 8766
    :: match initiate_service_connect sv server_url service auth_token 8766
       with
       | Raise e => [Say (ServiceError service e)]
       | Ret None => [Say (ServiceTimeout service); Say ServiceTimeoutHint]
       | Ret (Some result) =>
           match result !! "error" with
           | Some error => [Say (ServiceFailed service error)]
           | None =>
               let email := default "Unknown" (result !! "email") in
               ([Say (ServiceConnected service)]
                ++ (if negb (bool_decide (email = ""))
                       && negb (bool_decide (email = "Unknown"))
                    then [Say (ConnectedAs email)] else [])
                ++ [Say (CanNowSync service)])%list
           end
       end.

(** [_connect_service] *)
Definition connect_service (sv : services) (self : ZylchCLI)
    (service : string) : list service_event :=
  Say (ServicePanel service)
    :: (if decide (service = "google") then
          CallGetGoogleStatus
            :: match get_google_status sv with
               | Raise e => [Say (ServiceError service e)]
               | Ret status =>
                   if has_credentials status && negb (expired status)
                   then [Say (AlreadyConnectedAs
                                (default "Unknown" (google_email status)));
                         Say ReconnectHint]
                   else service_oauth sv self service
               end
        else service_oauth sv self service).

(** [_disconnect_all_services] *)
Definition disconnect_all_services (sv : services) : list service_event :=
  [Say DisconnectPanel; Ask AskDisconnectAll]
  ++ (if negb (confirm sv AskDisconnectAll) then [Say Cancelled]
      else
        [CallGetAnthropicStatus]
        ++ match get_anthropic_status sv with
           | Raise e => [Say (AnthropicDeleteError e)]
           | Ret status =>
               if has_key status then
                 CallRevokeAnthropic
                   :: match revoke_anthropic sv with
                      | Ret _ => [Say AnthropicKeyDeleted]
                      | Raise e => [Say (AnthropicDeleteError e)]
                      end
               else [Say AnthropicWasNotConfigured]
           end
        ++ [CallGetGoogleStatus]
        ++ match get_google_status sv with
           | Raise e => [Say (GoogleDisconnectError e)]
           | Ret status =>
               if has_credentials status then
                 CallRevokeGoogle
                   :: match revoke_google sv with
                      | Ret _ => [Say GoogleDisconnected]
                      | Raise e => [Say (GoogleDisconnectError e)]
                      end
               else [Say GoogleWasNotConnected]
           end
        ++ [Say AllServicesDisconnected])%list.

(** [s[:n]] *)
Fixpoint first_chars (n : nat) (s : string) : string :=
  match n, s with
  | S n', String c r => String c (first_chars n' r)
  | _, _ => EmptyString
  end.

(** [s[-n:]] for a positive [n] *)
Fixpoint last_chars (n : nat) (s : string) : string :=
  match s with
  | EmptyString => EmptyString
  | String c r => if (String.length s <=? n)%nat then s else last_chars n r
  end.

(** [env_key[:12] + '...' + env_key[-4:]] *)
Definition mask_key (env_key : string) : string :=
  first_chars 12 env_key +:+ "..." +:+ last_chars 4 env_key.

(** The end of [_connect_anthropic]: the key is trimmed, checked and
    saved. *)
Definition save_anthropic_key (sv : services) (api_key : string)
  : list service_event :=
  let api_key := strip api_key in
  let save :=
    CallSetAnthropicKey api_key
      :: match set_anthropic_key sv api_key with
         | Ret result =>
             if success result then [Say KeySaved; Say CanNowChat]
             else [Say (KeySaveFailed
                          (default "Unknown error" (save_error result)))]
         | Raise e => [Say (KeySaveError e)]
         end in
  if negb (startswith api_key "sk-ant-") then
    Say KeyFormatWarning :: Ask AskContinueAnyway
      :: (if negb (confirm sv AskContinueAnyway) then [] else save)
  else save.

(** The middle of [_connect_anthropic]: the key comes from the environment
    or from the prompt. *)
Definition choose_anthropic_key (sv : services) : list service_event :=
  let env_key := environ_anthropic_key sv in
  let from_environment :=
    truthy env_key && startswith (default "" env_key) "sk-ant-" in
  let found :=
    if from_environment
    then [Say (FoundEnvironmentKey (mask_key (default "" env_key)));
          Ask AskUseEnvKey]
    else [] in
  let api_key :=
    if from_environment && confirm sv AskUseEnvKey then env_key else None in
  (found
   ++ (if negb (truthy api_key) then
         [Say EmptyLine; AskApiKey]
         ++ (let api_key := prompt_api_key sv in
             if negb (truthy api_key)
                || bool_decide (strip (default "" api_key) = "")
             then [Say NoKeyProvided]
             else save_anthropic_key sv (default "" api_key))
       else save_anthropic_key sv (default "" api_key)))%list.

(** [_connect_anthropic] *)
Definition connect_anthropic (sv : services) : list service_event :=
  [Say AnthropicPanel; CallGetAnthropicStatus]
  ++ match get_anthropic_status sv with
     | Ret status =>
         if has_key status then
           Say KeyAlreadyConfigured :: Ask AskReplaceKey
             :: (if negb (confirm sv AskReplaceKey) then []
                 else choose_anthropic_key sv)
         else choose_anthropic_key sv
     | Raise _ => choose_anthropic_key sv
     end.

(** The flows that [connect] starts. *)
Definition run_flow (sv : services) (self : ZylchCLI) (f : connect_flow)
  : list service_event :=
  match f with
  | DisconnectAllServices => disconnect_all_services sv
  | ShowConnectionStatus => show_connection_status sv
  | ConnectGoogle => connect_service sv self "google"
  | ConnectMicrosoft => connect_service sv self "microsoft"
  | ConnectAnthropic => connect_anthropic sv
  end.

Section Startup.
Context {lib : PyLib}.

(** [_show_startup_status]: what it shows and calls, and the exception it
    lets through, if any. *)
Definition show_startup_status (now : Z) (sv : services) (self : ZylchCLI)
  : list service_event * result () :=
  let token := session_token (config self) in
  if decide (token = "")
  then ([Say StatusHeader; Say StartupNotLoggedIn], Ret ())
  else
    match check_token_status now token with
    | Raise e => ([Say StatusHeader], Raise e)
    | Ret (is_valid, _) =>
        if negb is_valid
        then ([Say StatusHeader; Say StartupSessionExpired], Ret ())
        else
          let user_email := email (config self) in
          ([Say StatusHeader;
            Say (if decide (user_email = "") then StartupLoggedIn
                 else StartupLoggedInAs user_email)]
           ++ startup_anthropic sv ++ startup_google sv
           ++ [Say EmptyLine],
           Ret ())%list
    end.

(** [chat]: the panel, the start-up status outside the [try], then the
    loop, which starts without a session id. *)
Definition chat (now : Z) (sv : services)
    (script : list (world * option string)) (self : ZylchCLI)
  : list service_event * result (session * list event) :=
  let '(startup, outcome) := show_startup_status now sv self in
  (Say ChatPanel :: startup,
   match outcome with
   | Raise e => Raise e
   | Ret _ => Ret (chat_loop script {| cli := self; session_id := None |})
   end).

End Startup.

(** [load_config], on a file that holds a configuration when it exists. *)
Definition load_config (file : option CLIConfig) (db : string) : CLIConfig :=
  match file with
  | Some c => c
  | None => default_config db
  end.

(** [ZylchCLI.__init__]: the client starts with the stored token. *)
Definition init (file : option CLIConfig) (db : string) : ZylchCLI :=
  let c := load_config file db in
  {| config := c; client_token := session_token c; config_file := file |}.

(** [cli.config.api_server_url = server_url] *)
Definition set_server_url (self : ZylchCLI) (server_url : string) : ZylchCLI :=
  with_config self
    {| api_server_url := server_url;
       session_token := session_token (config self);
       owner_id := owner_id (config self);
       email := email (config self);
       local_db_path := local_db_path (config self);
       enable_offline := enable_offline (config self);
       max_offline_days := max_offline_days (config self);
       auto_sync_on_start := auto_sync_on_start (config self) |}.

(** How the process ends: [sys.exit(code)], a normal return (code 0), or an
    exception nobody caught. *)
Inductive exit_status : Type :=
  | Exited (code : Z)
  | Died (e : exn).

Section Main.
Context {lib : PyLib}.

(** [main]: the object, the [--server-url] override, the health check,
    then [chat]. *)
Definition main (server_url : option string) (file : option CLIConfig)
    (db : string) (now : Z) (sv : services)
    (script : list (world * option string))
  : list service_event * option (session * list event) * exit_status :=
  let self := init file db in
  let self :=
    if truthy server_url then set_server_url self (default "" server_url)
    else self in
  let '(healthy, checked) := check_server sv in
  if negb healthy then (checked, None, Exited 1)
  else
    let '(shown, outcome) := chat now sv script self in
    match outcome with
    | Ret run => ((checked ++ shown)%list, Some run, Exited 0)
    | Raise e => ((checked ++ shown)%list, None, Died e)
    end.

End Main.

(** ** Vocabulary for the start-up and service properties *)

Definition is_say (e : service_event) : bool :=
  match e with
  | Say _ => true
  | _ => false
  end.

(** The OAuth login goes to [url] and the configuration saved names
    [url]. *)
Definition targets_server (url : string) (e : event) : Prop :=
  match e with
  | BrowserLogin server_url callback_port =>
      server_url = url /\ callback_port = 8765%Z
  | SaveConfig c => api_server_url c = url
  | _ => True
  end.

(** The server says an Anthropic key is stored. *)
Definition anthropic_key_stored (sv : services) : bool :=
  match get_anthropic_status sv with
  | Ret status => has_key status
  | Raise _ => false
  end.

(** The server says Google credentials are stored. *)
Definition google_credentials_stored (sv : services) : bool :=
  match get_google_status sv with
  | Ret status => has_credentials status
  | Raise _ => false
  end.

(** The server says Google is connected with a token that has not
    expired. *)
Definition google_connected (sv : services) : bool :=
  match get_google_status sv with
  | Ret status => has_credentials status && negb (expired status)
  | Raise _ => false
  end.

(** ** cli.py: [sync]

    A computation that shows and calls things and then returns or raises:
    the events so far and the outcome.  The local storage is taken to
    accept every write. *)

Definition trace (E A : Type) : Type := list E * result A.

Definition emit {E : Type} (events : list E) : trace E () := (events, Ret ()).

Definition call {E A : Type} (e : E) (outcome : result A) : trace E A :=
  ([e], outcome).

Definition then_do {E A B : Type} (m : trace E A) (f : A -> trace E B)
  : trace E B :=
  match m with
  | (events, Ret a) => let '(events', r) := f a in ((events ++ events')%list, r)
  | (events, Raise e) => (events, Raise e)
  end.

Arguments then_do : simpl never.

Notation "x <~ m ;; k" := (then_do m (fun x => k))
  (at level 100, m at next level, right associativity).
Notation "m ;; k" := (then_do m (fun _ => k))
  (at level 100, right associativity).

(** An entry of a listing: a [dict] with string values. *)
Definition item : Type := gmap string string.

(** What the three listing calls answer: the list under [threads],
    [events] and [contacts] of the reply. *)
Record listings : Type := mkListings {
  list_emails : Z -> Z -> result (list item);
  list_calendar_events : Z -> result (list item);
  list_contacts : Z -> result (list item);
}.

Inductive sync_message : Type :=
  | SyncNotLoggedIn
  | Syncing
  | FetchingEmails
  | CachedThreads (n : nat)
  | FetchingCalendar
  | CachedEvents (n : nat)
  | FetchingContacts
  | CachedContacts (n : nat)
  | SyncComplete
  | SyncAuthenticationFailed
  | SyncFailed (e : exn).

Inductive sync_event : Type :=
  | SyncSay (m : sync_message)
  | CallListEmails (days_back limit : Z)
  | CallListCalendarEvents (limit : Z)
  | CallListContacts (limit : Z)
  | CacheEmailThread (thread_id : string) (thread : item)
  | CacheCalendarEvent (event_id : string) (event : item)
  | CacheContact (memory_id : string) (contact : item)
  | RecordSync (kind : string) (ok : bool).

(** [d[key]] raises [KeyError] for a missing key. *)
Definition KeyError (key : string) : exn := OtherError ("KeyError: " +:+ key).

(** [for x in items: cache(x[key], x)] *)
Fixpoint cache_all (key : string) (cache : string -> item -> sync_event)
    (items : list item) : trace sync_event () :=
  match items with
  | [] => emit []
  | x :: rest =>
      match x !! key with
      | Some id => (emit [cache id x] ;; cache_all key cache rest)
      | None => ([], Raise (KeyError key))
      end
  end.

(** The [try] block of [sync]. *)
Definition sync_body (ls : listings) : trace sync_event () :=
  emit [SyncSay FetchingEmails] ;;
  threads <~ call (CallListEmails 30 100) (list_emails ls 30 100) ;;
  cache_all "thread_id" CacheEmailThread threads ;;
  emit [SyncSay (CachedThreads (length threads))] ;;
  emit [SyncSay FetchingCalendar] ;;
  events <~ call (CallListCalendarEvents 100) (list_calendar_events ls 100) ;;
  cache_all "event_id" CacheCalendarEvent events ;;
  emit [SyncSay (CachedEvents (length events))] ;;
  emit [SyncSay FetchingContacts] ;;
  contacts <~ call (CallListContacts 100) (list_contacts ls 100) ;;
  cache_all "memory_id" CacheContact contacts ;;
  emit [SyncSay (CachedContacts (length contacts))] ;;
  emit [RecordSync "email" true; RecordSync "calendar" true;
        RecordSync "contacts" true; SyncSay SyncComplete].

Section Sync.
Context {lib : PyLib}.

(** [sync]: the two handlers catch the API client's exceptions; any other
    exception gets out. *)
Definition sync (w : world) (ls : listings) (self : ZylchCLI)
  : trace sync_event () :=
  match check_auth w self with
  | Raise e => ([], Raise e)
  | Ret false => emit [SyncSay SyncNotLoggedIn]
  | Ret true =>
      match (emit [SyncSay Syncing] ;; sync_body ls) with
      | (events, Ret _) => (events, Ret ())
      | (events, Raise ZylchAuthError) =>
          ((events ++ [SyncSay SyncAuthenticationFailed])%list, Ret ())
      | (events, Raise (ZylchAPIError msg)) =>
          ((events ++ [SyncSay (SyncFailed (ZylchAPIError msg))])%list, Ret ())
      | (events, Raise e) => (events, Raise e)
      end
  end.

End Sync.

Definition is_cache_write (e : sync_event) : bool :=
  match e with
  | CacheEmailThread _ _ | CacheCalendarEvent _ _ | CacheContact _ _ => true
  | _ => false
  end.

Definition is_record_sync (e : sync_event) : bool :=
  match e with
  | RecordSync _ _ => true
  | _ => false
  end.

Definition is_listing_call (e : sync_event) : bool :=
  match e with
  | CallListEmails _ _ | CallListCalendarEvents _ | CallListContacts _ => true
  | _ => false
  end.

(** Every entry has the key. *)
Definition all_have (key : string) (items : list item) : Prop :=
  Forall (fun x => is_Some (x !! key)) items.

(** The three listings returned and every entry has its id. *)
Definition complete_listings (ls : listings) : Prop :=
  exists threads events contacts,
    list_emails ls 30 100 = Ret threads
    /\ list_calendar_events ls 100 = Ret events
    /\ list_contacts ls 100 = Ret contacts
    /\ all_have "thread_id" threads /\ all_have "event_id" events
    /\ all_have "memory_id" contacts.

(** ** cli.py: [CommandCompleter] *)

(** The commands the completer lists as handled by the client. *)
Definition client_side_commands : list string :=
  ["/login"; "/logout"; "/status"; "/new"; "/quit"; "/exit";
   "/connect"; "/connect google"; "/connect anthropic";
   "/connect microsoft"; "/connect --reset"].

(** The commands the completer lists as sent to the server. *)
Definition server_side_commands : list string :=
  ["/help"; "/sync"; "/gaps"; "/briefing";
   "/archive"; "/archive --help"; "/archive --stats"; "/archive --init";
   "/archive --sync"; "/archive --search";
   "/cache"; "/cache --help"; "/cache --clear";
   "/memory"; "/memory --help"; "/memory --list"; "/memory --stats";
   "/memory --add";
   "/model"; "/model haiku"; "/model sonnet"; "/model opus"; "/model auto";
   "/trigger"; "/trigger --help"; "/trigger --list"; "/trigger --add";
   "/trigger --remove"; "/trigger --types";
   "/mrcall"; "/mrcall --help";
   "/share"; "/revoke"; "/sharing";
   "/tutorial"].

Definition commands : list string :=
  (client_side_commands ++ server_side_commands)%list.

(** [get_completions]: each completion with its start position. *)
Definition get_completions (text_before_cursor : string)
  : list (string * Z) :=
  let text := lower text_before_cursor in
  omap (fun cmd =>
          if startswith (lower cmd) text then Some (cmd, - len text)
          else None)
       commands.

(** ** Concrete collaborators *)

Module Run.

(** A server that is up, with an Anthropic key stored and Google
    connected; the user agrees to everything and types a key with blanks
    around it. *)
Definition services_up : services :=
  {| health_check := Ret {["status" := "healthy"]};
     get_anthropic_status := Ret (mkAnthropicStatus true);
     get_google_status := Ret (mkGoogleStatus true false (Some "a@b.c"));
     revoke_anthropic := Ret ();
     revoke_google := Raise (ZylchAPIError "down");
     set_anthropic_key := fun _ => Ret (mkSaveResult true None);
     initiate_service_connect := fun _ _ _ _ => Ret None;
     confirm := fun _ => true;
     prompt_api_key := Some " sk-ant-key ";
     environ_anthropic_key := None |}.

(** The same server with a user who declines everything. *)
Definition services_declined : services :=
  {| health_check := Ret {["status" := "healthy"]};
     get_anthropic_status := Ret (mkAnthropicStatus true);
     get_google_status := Ret (mkGoogleStatus true false (Some "a@b.c"));
     revoke_anthropic := Ret ();
     revoke_google := Ret ();
     set_anthropic_key := fun _ => Ret (mkSaveResult true None);
     initiate_service_connect := fun _ _ _ _ => Ret None;
     confirm := fun _ => false;
     prompt_api_key := None;
     environ_anthropic_key := None |}.

(** A server that cannot be reached. *)
Definition services_down : services :=
  {| health_check := Raise (OtherError "connection refused");
     get_anthropic_status := Raise (OtherError "connection refused");
     get_google_status := Raise (OtherError "connection refused");
     revoke_anthropic := Raise (OtherError "connection refused");
     revoke_google := Raise (OtherError "connection refused");
     set_anthropic_key := fun _ => Raise (OtherError "connection refused");
     initiate_service_connect := fun _ _ _ _ =>
       Raise (OtherError "connection refused");
     confirm := fun _ => true;
     prompt_api_key := None;
     environ_anthropic_key := None |}.

(** A configuration file that stores [token]. *)
Definition stored (token : string) : option CLIConfig :=
  Some (set_identity (default_config "db") token "u1" "a@b.c").

Definition thread (id : string) : item := {["thread_id" := id]}.

(** Two threads, then a calendar service that fails. *)
Definition listings_calendar_down : listings :=
  {| list_emails := fun _ _ => Ret [thread "t1"; thread "t2"];
     list_calendar_events := fun _ => Raise (ZylchAPIError "calendar down");
     list_contacts := fun _ => Ret [] |}.

End Run.

(** * Properties *)

(** ** The token codec *)

Lemma append_empty_r (s : string) : s +:+ "" = s.
Proof.
  induction s as [|c s IH]; [reflexivity |].
  change (String c (s +:+ "") = String c s). by rewrite IH.
Qed.

Lemma length_append (s t : string) :
  String.length (s +:+ t) = (String.length s + String.length t)%nat.
Proof.
  induction s as [|c s IH]; [reflexivity |].
  change (S (String.length (s +:+ t))
          = S (String.length s + String.length t)).
  by rewrite IH.
Qed.

Lemma length_str_repeat (c : ascii) (n : nat) :
  String.length (str_repeat c n) = n.
Proof. induction n as [|n IH]; simpl; [reflexivity | by rewrite IH]. Qed.

Lemma three_parts {A : Type} (parts : list A) :
  (Z.of_nat (length parts) =? 3)%Z = true ->
  exists a b c, parts = [a; b; c].
Proof.
  intros H. apply Z.eqb_eq in H.
  destruct parts as [|a [|b [|c [|d l]]]]; simpl in H; try lia.
  by exists a, b, c.
Qed.

Lemma not_three_parts {A : Type} (parts : list A) :
  (Z.of_nat (length parts) =? 3)%Z = false ->
  forall a b c, parts <> [a; b; c].
Proof.
  intros H a b c ->. simpl in H. discriminate.
Qed.

(** The padding the code appends is the padding the specification
    describes. *)
Lemma add_padding_restore (payload : string) :
  add_padding payload = restore_padding payload.
Proof.
  unfold add_padding, restore_padding, len.
  change 4%Z with (Z.of_nat 4). rewrite <- Nat2Z.inj_mod.
  pose proof (Nat.mod_upper_bound (String.length payload) 4 ltac:(lia)) as Hk.
  destruct (String.length payload `mod` 4)%nat as [|[|[|[|k]]]] eqn:Ek;
    try lia; try reflexivity.
  symmetry. apply append_empty_r.
Qed.

Lemma restore_padding_length (segment : string) :
  (String.length (restore_padding segment) mod 4 = 0)%nat.
Proof.
  unfold restore_padding. rewrite length_append, length_str_repeat.
  pose proof (Nat.mod_upper_bound (String.length segment) 4 ltac:(lia)) as Hk.
  pose proof (Nat.div_mod_eq (String.length segment) 4) as Hd.
  destruct (String.length segment `mod` 4)%nat as [|[|[|[|k]]]] eqn:Ek;
    try lia; rewrite Hd;
    change ((4 - 0) `mod` 4)%nat with 0%nat;
    change ((4 - 1) `mod` 4)%nat with 3%nat;
    change ((4 - 2) `mod` 4)%nat with 2%nat;
    change ((4 - 3) `mod` 4)%nat with 1%nat.
  - replace (4 * (String.length segment `div` 4) + 0 + 0)%nat
      with ((String.length segment `div` 4) * 4)%nat by lia.
    apply Nat.Div0.mod_mul.
  - replace (4 * (String.length segment `div` 4) + 1 + 3)%nat
      with ((String.length segment `div` 4 + 1) * 4)%nat by lia.
    apply Nat.Div0.mod_mul.
  - replace (4 * (String.length segment `div` 4) + 2 + 2)%nat
      with ((String.length segment `div` 4 + 1) * 4)%nat by lia.
    apply Nat.Div0.mod_mul.
  - replace (4 * (String.length segment `div` 4) + 3 + 1)%nat
      with ((String.length segment `div` 4 + 1) * 4)%nat by lia.
    apply Nat.Div0.mod_mul.
Qed.

Section TokenCodec.
Context {lib : PyLib}.

(** Every exception raised in the body of [parse_jwt_expiry] becomes
    [None]. *)
Lemma parse_jwt_expiry_collapses (token : string) (e : exn) :
  parse_jwt_expiry_body token = Raise e -> parse_jwt_expiry token = PNone.
Proof. unfold parse_jwt_expiry. by intros ->. Qed.

(** C6: [parse_jwt_expiry] is the function the specification describes:
    [None] unless the token has exactly three dot-separated segments; the
    second segment, padded with [=] to a multiple of four characters, is
    base64url-decoded and parsed as JSON, a failure of either giving [None];
    the result is the [exp] member of the payload if there is one, else
    [None]. *)
Theorem parse_jwt_expiry_refines_spec (token : string) :
  parse_jwt_expiry token = parseExpiry_spec token
  /\ (forall segment,
        (String.length (restore_padding segment) mod 4 = 0)%nat
        /\ exists n, restore_padding segment = segment +:+ str_repeat "=" n).
Proof.
  split.
  - unfold parse_jwt_expiry, parse_jwt_expiry_body, parseExpiry_spec.
    destruct (Z.of_nat (length (split "." token)) =? 3)%Z eqn:Hlen; simpl.
    + destruct (three_parts _ Hlen) as (a & b & c & ->). simpl.
      rewrite add_padding_restore.
      destruct (urlsafe_b64decode (restore_padding b)) as [decoded|]; simpl;
        [| reflexivity].
      destruct (json_loads decoded) as [payload|]; simpl; [| reflexivity].
      by destruct payload.
    + pose proof (not_three_parts _ Hlen) as Hne.
      destruct (split "." token) as [|a [|b [|c [|d l]]]]; try reflexivity.
      by destruct (Hne a b c).
  - intros segment. split; [apply restore_padding_length |].
    unfold restore_padding. eauto.
Qed.

(** What [parse_jwt_expiry] does return: [None], or the [exp] member of the
    payload whatever its JSON type. *)
Lemma parse_jwt_expiry_none_or_member (token : string) :
  parse_jwt_expiry token = PNone
  \/ exists header payload signature decoded members,
       split "." token = [header; payload; signature]
       /\ urlsafe_b64decode (add_padding payload) = Ret decoded
       /\ json_loads decoded = Ret (PDict members)
       /\ dict_get (codes "exp") members = Some (parse_jwt_expiry token).
Proof.
  unfold parse_jwt_expiry, parse_jwt_expiry_body.
  generalize (codes "exp"). intros key.
  destruct (Z.of_nat (length (split "." token)) =? 3)%Z eqn:Hlen; simpl;
    [| by left].
  destruct (three_parts _ Hlen) as (a & b & c & ->). simpl.
  destruct (urlsafe_b64decode (add_padding b)) as [decoded|] eqn:Hb; simpl;
    [| by left].
  destruct (json_loads decoded) as [data|] eqn:Hj; simpl; [| by left].
  destruct data as [| | | | | |members]; simpl; try by left.
  destruct (dict_get key members) as [v|] eqn:Hget; simpl; [| by left].
  right. by exists a, b, c, decoded, members.
Qed.

End TokenCodec.

Section TokenStatus.
Context {lib : PyLib}.

Lemma check_token_status_empty (now : Z) :
  check_token_status now "" = Ret (false, PNone).
Proof. reflexivity. Qed.

Lemma check_token_status_unparsable (now : Z) (token : string) :
  token <> "" -> parse_jwt_expiry token = PNone ->
  check_token_status now token = Ret (true, PNone).
Proof.
  intros Hne Hexp. unfold check_token_status.
  destruct (decide (token = "")); [contradiction |]. by rewrite Hexp.
Qed.

Lemma check_token_status_integer (now exp : Z) (token : string) :
  token <> "" -> parse_jwt_expiry token = PInt exp ->
  check_token_status now token = Ret ((0 <? exp - now)%Z, PInt (exp - now)).
Proof.
  intros Hne Hexp. unfold check_token_status.
  destruct (decide (token = "")); [contradiction |]. by rewrite Hexp.
Qed.

(** An expiry one hour ahead is valid with 3600 seconds left; an expiry one
    second ago is invalid with -1. *)
Lemma check_token_status_hour_ahead (now : Z) (token : string) :
  token <> "" -> parse_jwt_expiry token = PInt (now + 3600) ->
  check_token_status now token = Ret (true, PInt 3600).
Proof.
  intros Hne Hexp. rewrite (check_token_status_integer now (now + 3600)) by done.
  replace (now + 3600 - now)%Z with 3600%Z by lia. reflexivity.
Qed.

Lemma check_token_status_second_ago (now : Z) (token : string) :
  token <> "" -> parse_jwt_expiry token = PInt (now - 1) ->
  check_token_status now token = Ret (false, PInt (-1)).
Proof.
  intros Hne Hexp. rewrite (check_token_status_integer now (now - 1)) by done.
  replace (now - 1 - now)%Z with (-1)%Z by lia. reflexivity.
Qed.

(** A token that [check_auth] accepts is not empty. *)
Lemma check_auth_token (w : world) (self : ZylchCLI) :
  check_auth w self = Ret true -> session_token (config self) <> "".
Proof.
  unfold check_auth. destruct (decide (session_token (config self) = ""));
    [discriminate | done].
Qed.

End TokenStatus.

(** C1: on the token [a.eyJleHAiOiJ4In0.b], whose payload is the JSON
    object [{"exp":"x"}], [parse_jwt_expiry] returns the string ["x"], which
    is neither [None] nor an integer. *)
Theorem parse_jwt_expiry_returns_string :
  parse_jwt_expiry (lib := CPython.lib) Scenario.token_exp_string
    = PStr (codes "x")
  /\ is_none (parse_jwt_expiry (lib := CPython.lib) Scenario.token_exp_string)
     = false
  /\ is_int (parse_jwt_expiry (lib := CPython.lib) Scenario.token_exp_string)
     = false.
Proof. repeat split; vm_compute; reflexivity. Qed.

(** C2: on the same token [check_token_status] raises [TypeError] at
    [exp - now] instead of returning a pair. *)
Theorem check_token_status_raises_type_error :
  check_token_status (lib := CPython.lib) Scenario.clock
    Scenario.token_exp_string = Raise TypeError.
Proof. vm_compute. reflexivity. Qed.

(** The same function on other tokens: an integer expiry, two segments, a
    payload that is not base64 of JSON, a payload that is a JSON array, an
    object without [exp]. *)
Example parse_jwt_expiry_examples :
  parse_jwt_expiry (lib := CPython.lib) "a.eyJleHAiOjF9.b" = PInt 1
  /\ parse_jwt_expiry (lib := CPython.lib) "a.eyJleHAiOjF9" = PNone
  /\ parse_jwt_expiry (lib := CPython.lib) "a.b.c.d" = PNone
  /\ parse_jwt_expiry (lib := CPython.lib) "" = PNone
  /\ parse_jwt_expiry (lib := CPython.lib) "a.!!!.c" = PNone
  /\ parse_jwt_expiry (lib := CPython.lib) "a.WzFd.c" = PNone
  /\ parse_jwt_expiry (lib := CPython.lib) "a.eyJzdWIiOiJ1In0.c" = PNone.
Proof. repeat split; vm_compute; reflexivity. Qed.

(** With an integer expiry the code does what the specification says. *)
Example check_token_status_expired :
  check_token_status (lib := CPython.lib) Scenario.clock Scenario.token_expired
  = Ret (false, PInt (1 - Scenario.clock)).
Proof. vm_compute. reflexivity. Qed.

(** ** The dispatcher *)

Section Dispatcher.
Context {lib : PyLib}.

Lemma not_local_command (cmd : string) :
  is_local_command cmd = false ->
  (cmd ∉ ["/quit"; "/exit"; "/q"]) /\ cmd <> "/login" /\ cmd <> "/logout"
  /\ cmd <> "/status" /\ cmd <> "/new" /\ cmd <> "/connect"
  /\ startswith cmd "/connect " = false.
Proof.
  unfold is_local_command. intros H.
  apply orb_false_iff in H as [Hmem Hpre].
  apply bool_decide_eq_false in Hmem.
  repeat split; try exact Hpre; intros Habs; apply Hmem;
    rewrite !elem_of_cons in *; tauto.
Qed.

(** A line that is neither blank nor a local command reaches the token guard
    and, past it, [send]. *)
Lemma chat_cycle_not_local (w : world) (st : session) (user_input : string) :
  strip user_input <> "" ->
  is_local_command (lower (strip user_input)) = false ->
  chat_cycle w st (Some user_input)
  = if decide (session_token (config (cli st)) = "")
    then (st, [Print NotLoggedInUseLogin], Continue)
    else send w st user_input.
Proof.
  intros Hblank Hloc.
  destruct (not_local_command _ Hloc)
    as (Hquit & Hlogin & Hlogout & Hstatus & Hnew & Hconnect & Hpre).
  unfold chat_cycle.
  destruct (decide (strip user_input = "")); [contradiction |].
  cbv zeta.
  destruct (decide (lower (strip user_input) ∈ ["/quit"; "/exit"; "/q"]));
    [contradiction |].
  repeat (destruct (decide (lower (strip user_input) = _)) as [Heq|_];
          [first [contradiction | by rewrite Heq in Hpre] |]).
  by rewrite Hpre.
Qed.

(** Whatever the server answers, [send] makes one remote call: the line as
    typed, with the current session id.  It leaves the object alone. *)
Lemma send_one_call (w : world) (st : session) (user_input : string) :
  List.filter is_remote_call (events_of (send w st user_input))
  = [ApiSendChat user_input (session_id st)]
  /\ cli (state_of (send w st user_input)) = cli st.
Proof.
  unfold send.
  destruct (send_chat_message w user_input (session_id st)) as [r|e].
  - split; [| reflexivity]. unfold events_of. simpl.
    by destruct (truthy (resp_metadata r) && debug_logging w).
  - by destruct e.
Qed.

Lemma send_reply (w : world) (st : session) (user_input : string)
    (response : chat_response) :
  send_chat_message w user_input (session_id st) = Ret response ->
  session_id (state_of (send w st user_input)) = resp_session_id response
  /\ control_of (send w st user_input) = Continue
  /\ Print (Reply (default "" (resp_response response)))
     ∈ events_of (send w st user_input).
Proof.
  intros H. unfold send. rewrite H. repeat split.
  unfold events_of. simpl. set_solver.
Qed.

(** C3 (amended): a line that is not blank, not a local command and not a
    slash command is sent to the server exactly when the stored token is not
    empty; no expiry check is made.  With an empty token the cycle prints the
    not-logged-in message and makes no remote call.  Otherwise the one
    remote call is [send_chat_message] with the line as typed and the current
    session id, and on a reply the session id becomes the reply's. *)
Theorem chat_message_dispatch (w : world) (st : session)
    (user_input : string) :
  strip user_input <> "" ->
  is_local_command (lower (strip user_input)) = false ->
  is_slash_command user_input = false ->
  (session_token (config (cli st)) = "" ->
     chat_cycle w st (Some user_input)
     = (st, [Print NotLoggedInUseLogin], Continue))
  /\ (session_token (config (cli st)) <> "" ->
        List.filter is_remote_call
          (events_of (chat_cycle w st (Some user_input)))
        = [ApiSendChat user_input (session_id st)]
        /\ cli (state_of (chat_cycle w st (Some user_input))) = cli st
        /\ forall response,
             send_chat_message w user_input (session_id st) = Ret response ->
             session_id (state_of (chat_cycle w st (Some user_input)))
             = resp_session_id response
             /\ control_of (chat_cycle w st (Some user_input)) = Continue
             /\ Print (Reply (default "" (resp_response response)))
                ∈ events_of (chat_cycle w st (Some user_input))).
Proof.
  intros Hblank Hloc _. rewrite (chat_cycle_not_local w st user_input) by done.
  split; intros Htok;
    destruct (decide (session_token (config (cli st)) = "")); try done.
  destruct (send_one_call w st user_input) as [Hcall Hcli].
  split; [exact Hcall |]. split; [exact Hcli |].
  intros response Hret. by apply send_reply.
Qed.

(** C4 (amended): a line that begins with [/] and is not a local command
    takes the same path as a chat message: there is no separate forwarding
    operation.  With a non-empty token (in particular whenever [check_auth]
    holds) the raw line is passed verbatim to [send_chat_message] with the
    current session id and the reply is displayed; with an empty token the
    cycle prints the not-logged-in message and makes no remote call.  The
    expiry of the token is not checked. *)
Theorem slash_command_forwarded (w : world) (st : session)
    (user_input : string) :
  strip user_input <> "" ->
  is_local_command (lower (strip user_input)) = false ->
  is_slash_command user_input = true ->
  (session_token (config (cli st)) = "" ->
     chat_cycle w st (Some user_input)
     = (st, [Print NotLoggedInUseLogin], Continue))
  /\ (session_token (config (cli st)) <> "" ->
        List.filter is_remote_call
          (events_of (chat_cycle w st (Some user_input)))
        = [ApiSendChat user_input (session_id st)])
  /\ (check_auth w (cli st) = Ret true ->
        ApiSendChat user_input (session_id st)
        ∈ events_of (chat_cycle w st (Some user_input)))
  /\ (forall response,
        session_token (config (cli st)) <> "" ->
        send_chat_message w user_input (session_id st) = Ret response ->
        Print (Reply (default "" (resp_response response)))
        ∈ events_of (chat_cycle w st (Some user_input))).
Proof.
  intros Hblank Hloc _. rewrite (chat_cycle_not_local w st user_input) by done.
  destruct (send_one_call w st user_input) as [Hcall Hcli].
  repeat split.
  - intros Htok. by destruct (decide (session_token (config (cli st)) = "")).
  - intros Htok. by destruct (decide (session_token (config (cli st)) = "")).
  - intros Hauth. apply check_auth_token in Hauth.
    destruct (decide (session_token (config (cli st)) = "")); [done |].
    apply list_elem_of_In.
    apply (List.filter_In is_remote_call _
             (events_of (send w st user_input))).
    rewrite Hcall. by left.
  - intros response Htok Hret.
    destruct (decide (session_token (config (cli st)) = "")); [done |].
    by apply send_reply.
Qed.

(** C5 (amended): when [send_chat_message] raises [ZylchAuthError] the cycle
    prints the session-expired message, which asks for a new login, and
    changes nothing: token, identity and session id stay as they were.  When
    it raises [ZylchAPIError] the cycle prints the error.  In both cases the
    loop goes on to the next line. *)
Theorem remote_failure_reported (w : world) (st : session)
    (user_input : string) :
  strip user_input <> "" ->
  is_local_command (lower (strip user_input)) = false ->
  session_token (config (cli st)) <> "" ->
  (send_chat_message w user_input (session_id st) = Raise ZylchAuthError ->
     chat_cycle w st (Some user_input)
     = (st, [Print Thinking; ApiSendChat user_input (session_id st);
             Print SessionExpired], Continue))
  /\ (forall msg,
        send_chat_message w user_input (session_id st)
        = Raise (ZylchAPIError msg) ->
        chat_cycle w st (Some user_input)
        = (st, [Print Thinking; ApiSendChat user_input (session_id st);
                Print (ErrorMessage (ZylchAPIError msg))], Continue))
  /\ (forall rest,
        send_chat_message w user_input (session_id st) = Raise ZylchAuthError
        \/ (exists msg, send_chat_message w user_input (session_id st)
                        = Raise (ZylchAPIError msg)) ->
        (chat_loop ((w, Some user_input) :: rest) st).1
        = (chat_loop rest st).1
        /\ exists events,
             (chat_loop ((w, Some user_input) :: rest) st).2
             = (Print BlankLine :: events ++ (chat_loop rest st).2)%list).
Proof.
  intros Hblank Hloc Htok.
  assert (Hcycle : chat_cycle w st (Some user_input) = send w st user_input).
  { rewrite chat_cycle_not_local by done.
    by destruct (decide (session_token (config (cli st)) = "")). }
  repeat split.
  - intros H. rewrite Hcycle. unfold send. by rewrite H.
  - intros msg H. rewrite Hcycle. unfold send. by rewrite H.
  - cbn [chat_loop]. rewrite Hcycle. unfold send.
    destruct H as [H | [msg H]]; rewrite H; by destruct (chat_loop rest st).
  - cbn [chat_loop]. rewrite Hcycle. unfold send.
    destruct H as [H | [msg H]]; rewrite H; destruct (chat_loop rest st);
      eexists; reflexivity.
Qed.

End Dispatcher.

(** ** Local commands *)

Ltac not_in_list H :=
  repeat (apply elem_of_cons in H as [H|H]; [discriminate H |]);
  by apply elem_of_nil in H.

Lemma login_not_forwarding (w : world) (self : ZylchCLI)
    (message : string) (sid : option string) :
  ApiSendChat message sid ∉ (login w self).2.
Proof.
  unfold login, login_body.
  destruct (initiate_browser_login w (api_server_url (config self)) 8765)
    as [[r|]|e]; simpl; try (intros H; not_in_list H).
  destruct (r !! "error"); simpl; try (intros H; not_in_list H).
  destruct (truthy (r !! "token")); simpl; intros H; not_in_list H.
Qed.

Lemma login_no_remote_call (w : world) (self : ZylchCLI) :
  List.filter is_remote_call (login w self).2 = [].
Proof.
  unfold login, login_body.
  destruct (initiate_browser_login w (api_server_url (config self)) 8765)
    as [[r|]|e]; simpl; try reflexivity.
  destruct (r !! "error"); simpl; try reflexivity.
  by destruct (truthy (r !! "token")).
Qed.

Lemma lower_strip_not_blank (user_input cmd : string) :
  lower (strip user_input) = cmd -> cmd <> "" -> strip user_input <> "".
Proof. intros <- Hne Hblank. by rewrite Hblank in Hne. Qed.

Section LocalCommands.
Context {lib : PyLib}.

Lemma chat_cycle_login (w : world) (st : session) (user_input : string) :
  lower (strip user_input) = "/login" ->
  chat_cycle w st (Some user_input)
  = (with_cli st (login w (cli st)).1, (login w (cli st)).2, Continue).
Proof.
  intros Hcmd. unfold chat_cycle.
  destruct (decide (strip user_input = "")) as [Hblank|_];
    [by apply (lower_strip_not_blank _ _ Hcmd) in Hblank |].
  cbv zeta. rewrite Hcmd.
  destruct (decide ("/login" ∈ ["/quit"; "/exit"; "/q"])) as [H|_];
    [not_in_list H |].
  destruct (decide ("/login" = "/login")); [| done].
  by destruct (login w (cli st)).
Qed.

Lemma chat_cycle_logout (w : world) (st : session) (user_input : string) :
  lower (strip user_input) = "/logout" ->
  chat_cycle w st (Some user_input)
  = (with_cli st (logout w (cli st)).1, (logout w (cli st)).2, Continue).
Proof.
  intros Hcmd. unfold chat_cycle.
  destruct (decide (strip user_input = "")) as [Hblank|_];
    [by apply (lower_strip_not_blank _ _ Hcmd) in Hblank |].
  cbv zeta. rewrite Hcmd.
  destruct (decide ("/logout" ∈ ["/quit"; "/exit"; "/q"])) as [H|_];
    [not_in_list H |].
  destruct (decide ("/logout" = "/login")); [done |].
  destruct (decide ("/logout" = "/logout")); done.
Qed.

Lemma chat_cycle_status (w : world) (st : session) (user_input : string) :
  lower (strip user_input) = "/status" ->
  chat_cycle w st (Some user_input) = (st, status w (cli st), Continue).
Proof.
  intros Hcmd. unfold chat_cycle.
  destruct (decide (strip user_input = "")) as [Hblank|_];
    [by apply (lower_strip_not_blank _ _ Hcmd) in Hblank |].
  cbv zeta. rewrite Hcmd.
  destruct (decide ("/status" ∈ ["/quit"; "/exit"; "/q"])) as [H|_];
    [not_in_list H |].
  repeat (destruct (decide ("/status" = _)); try done).
Qed.

Lemma chat_cycle_new (w : world) (st : session) (user_input : string) :
  lower (strip user_input) = "/new" ->
  chat_cycle w st (Some user_input)
  = ({| cli := cli st; session_id := None |}, [Print NewConversation],
     Continue).
Proof.
  intros Hcmd. unfold chat_cycle.
  destruct (decide (strip user_input = "")) as [Hblank|_];
    [by apply (lower_strip_not_blank _ _ Hcmd) in Hblank |].
  cbv zeta. rewrite Hcmd.
  destruct (decide ("/new" ∈ ["/quit"; "/exit"; "/q"])) as [H|_];
    [not_in_list H |].
  repeat (destruct (decide ("/new" = _)); try done).
Qed.

Lemma chat_cycle_blank (w : world) (st : session) (user_input : string) :
  strip user_input = "" ->
  chat_cycle w st (Some user_input) = (st, [], Continue).
Proof.
  intros Hblank. unfold chat_cycle.
  by destruct (decide (strip user_input = "")).
Qed.

Lemma run_connect_not_forwarding (w : world) (st : session)
    (service : option string) (reset : bool) (message : string)
    (sid : option string) :
  ApiSendChat message sid ∉ events_of (run_connect w st service reset).
Proof.
  unfold run_connect, connect, events_of.
  destruct (check_auth w (cli st)) as [[|]|e]; simpl;
    try (intros H; not_in_list H).
  destruct reset; simpl; try (intros H; not_in_list H).
  destruct (truthy service); simpl; try (intros H; not_in_list H).
  repeat (destruct (decide _); simpl; try (intros H; not_in_list H)).
Qed.

(** The local commands are exactly the lines that are never sent: this is
    the converse of [chat_cycle_not_local]. *)
Lemma local_command_not_forwarded (w : world) (st : session)
    (user_input : string) (message : string) (sid : option string) :
  is_local_command (lower (strip user_input)) = true ->
  ApiSendChat message sid ∉ events_of (chat_cycle w st (Some user_input)).
Proof.
  intros Hloc. unfold chat_cycle.
  destruct (decide (strip user_input = "")); [intros H; not_in_list H |].
  cbv zeta.
  destruct (decide (_ ∈ _)); [intros H; not_in_list H |].
  destruct (decide (_ = "/login")) as [Hcmd|Hlogin].
  { pose proof (login_not_forwarding w (cli st) message sid) as H.
    by destruct (login w (cli st)). }
  destruct (decide (_ = "/logout")) as [Hcmd|Hlogout];
    [intros H; not_in_list H |].
  destruct (decide (_ = "/status")) as [Hcmd|Hstatus].
  { unfold events_of, status. simpl.
    destruct (decide (_ = "")); intros H; not_in_list H. }
  destruct (decide (_ = "/new")) as [Hcmd|Hnew]; [intros H; not_in_list H |].
  destruct (decide (_ = "/connect")) as [Hcmd|Hconnect];
    [apply run_connect_not_forwarding |].
  repeat (destruct (decide (_ = _));
          [apply run_connect_not_forwarding |]).
  destruct (startswith _ _) eqn:Hpre.
  { destruct (after_first_space _);
      [apply run_connect_not_forwarding | intros H; not_in_list H]. }
  exfalso. unfold is_local_command in Hloc. rewrite Hpre in Hloc.
  rewrite orb_false_r in Hloc. apply bool_decide_eq_true in Hloc.
  rewrite !elem_of_cons in *. rewrite elem_of_nil in Hloc. tauto.
Qed.

(** C7: a line whose trimmed, lower-cased text is [/login], [/logout],
    [/status] or [/new] is handled locally: the cycle never calls
    [send_chat_message] and the loop continues.  [/new] sets the session id
    to [None], prints one message and makes no remote call.  A blank line
    changes nothing and shows nothing. *)
Theorem local_auth_commands_not_forwarded (w : world) (st : session)
    (user_input : string) :
  (lower (strip user_input) ∈ ["/login"; "/logout"; "/status"; "/new"] ->
     control_of (chat_cycle w st (Some user_input)) = Continue
     /\ forall message sid,
          ApiSendChat message sid
          ∉ events_of (chat_cycle w st (Some user_input)))
  /\ (lower (strip user_input) = "/new" ->
        chat_cycle w st (Some user_input)
        = ({| cli := cli st; session_id := None |}, [Print NewConversation],
           Continue)
        /\ List.filter is_remote_call
             (events_of (chat_cycle w st (Some user_input))) = [])
  /\ (strip user_input = "" ->
        chat_cycle w st (Some user_input) = (st, [], Continue)).
Proof.
  split; [| split].
  - intros Hcmd. rewrite !elem_of_cons in Hcmd.
    destruct Hcmd as [H|[H|[H|[H|H]]]]; [| | | | by apply elem_of_nil in H].
    + rewrite chat_cycle_login by done. split; [reflexivity |].
      intros message sid. apply login_not_forwarding.
    + rewrite chat_cycle_logout by done. split; [reflexivity |].
      intros message sid Hin. unfold events_of, logout in Hin. simpl in Hin.
      not_in_list Hin.
    + rewrite chat_cycle_status by done. split; [reflexivity |].
      intros message sid Hin. unfold events_of, status in Hin. simpl in Hin.
      destruct (decide (session_token (config (cli st)) = ""));
        not_in_list Hin.
    + rewrite chat_cycle_new by done. split; [reflexivity |].
      intros message sid Hin. unfold events_of in Hin. simpl in Hin.
      not_in_list Hin.
  - intros Hcmd. by rewrite chat_cycle_new.
  - apply chat_cycle_blank.
Qed.

End LocalCommands.

(** ** Session state *)

Lemma login_identity_invariant (w : world) (self : ZylchCLI) :
  identity_invariant (config self) ->
  identity_invariant (config (login w self).1).
Proof.
  intros Hinv. unfold login, login_body.
  destruct (initiate_browser_login w (api_server_url (config self)) 8765)
    as [[r|]|e]; simpl; try exact Hinv.
  destruct (r !! "error"); simpl; try exact Hinv.
  destruct (r !! "token") as [t|]; simpl; try exact Hinv.
  destruct (bool_decide (t = "")) eqn:Et; simpl; try exact Hinv.
  right. simpl. by apply bool_decide_eq_false in Et.
Qed.

(** What a failed login leaves behind, and when the file is written. *)
Lemma login_failure_unchanged (w : world) (self : ZylchCLI) :
  login_failed (initiate_browser_login w (api_server_url (config self)) 8765)
  -> (login w self).1 = self.
Proof.
  unfold login, login_body, login_failed.
  destruct (initiate_browser_login w (api_server_url (config self)) 8765)
    as [[r|]|e]; simpl; try reflexivity.
  intros [[err Herr] | Htok].
  - by rewrite Herr.
  - destruct (r !! "error"); [reflexivity |]. by rewrite Htok.
Qed.

Lemma login_writes_only_with_token (w : world) (self : ZylchCLI) (e : event) :
  e ∈ (login w self).2 ->
  (exists c, e = SaveConfig c) \/ (exists t, e = SetToken t) ->
  exists r t,
    initiate_browser_login w (api_server_url (config self)) 8765
    = Ret (Some r)
    /\ r !! "error" = None /\ r !! "token" = Some t /\ t <> "".
Proof.
  unfold login, login_body.
  destruct (initiate_browser_login w (api_server_url (config self)) 8765)
    as [[r|]|x]; simpl.
  - destruct (r !! "error") eqn:Herr; simpl.
    + intros Hin [[c ->] | [t ->]]; not_in_list Hin.
    + destruct (r !! "token") as [t|] eqn:Htok; simpl.
      * destruct (bool_decide (t = "")) eqn:Et; simpl.
        -- intros Hin [[c ->] | [t' ->]]; not_in_list Hin.
        -- intros _ _. exists r, t. apply bool_decide_eq_false in Et. done.
      * intros Hin [[c ->] | [t ->]]; not_in_list Hin.
  - intros Hin [[c ->] | [t ->]]; not_in_list Hin.
  - intros Hin [[c ->] | [t ->]]; not_in_list Hin.
Qed.

(** C9: when the OAuth flow raises, times out, returns an error or returns
    no token, [login] leaves [self.config], the configuration file and the
    API client's token as they were; the configuration is saved, and the
    client's token set, only when the flow returns a result without an
    error and with a non-empty token. *)
Theorem login_failure_changes_nothing (w : world) (self : ZylchCLI) :
  (login_failed (initiate_browser_login w (api_server_url (config self)) 8765)
   -> config (login w self).1 = config self
      /\ config_file (login w self).1 = config_file self
      /\ client_token (login w self).1 = client_token self)
  /\ (forall e,
        e ∈ (login w self).2 ->
        (exists c, e = SaveConfig c) \/ (exists t, e = SetToken t) ->
        exists r t,
          initiate_browser_login w (api_server_url (config self)) 8765
          = Ret (Some r)
          /\ r !! "error" = None /\ r !! "token" = Some t /\ t <> "").
Proof.
  split.
  - intros Hfail. by rewrite login_failure_unchanged.
  - apply login_writes_only_with_token.
Qed.

(** C10: whatever [api_client.logout()] does, return or raise, [logout]
    empties the three session fields, keeps the other fields, and saves
    the configuration: it calls the API, saves and reports, and its result
    is the same in every world, that is for every outcome of the call. *)
Theorem logout_clears_and_saves (w : world) (self : ZylchCLI) :
  session_token (config (logout w self).1) = ""
  /\ owner_id (config (logout w self).1) = ""
  /\ email (config (logout w self).1) = ""
  /\ config (logout w self).1 = set_identity (config self) "" "" ""
  /\ config_file (logout w self).1 = Some (config (logout w self).1)
  /\ (logout w self).2
     = [ApiLogout; SaveConfig (config (logout w self).1); Print LoggedOut]
  /\ (forall w' : world, logout w' self = logout w self).
Proof. repeat split. Qed.

Section SessionState.
Context {lib : PyLib}.

Lemma run_connect_state (w : world) (st : session) (service : option string)
    (reset : bool) :
  state_of (run_connect w st service reset) = st.
Proof. unfold run_connect. by destruct (connect w (cli st) service reset). Qed.

(** No cycle of the loop breaks the invariant of the identity. *)
Lemma chat_cycle_identity_invariant (w : world) (st : session)
    (input : option string) :
  identity_invariant (config (cli st)) ->
  identity_invariant (config (cli (state_of (chat_cycle w st input)))).
Proof.
  intros Hinv. unfold chat_cycle.
  destruct input as [user_input|]; [| exact Hinv].
  destruct (decide (strip user_input = "")); [exact Hinv |].
  cbv zeta.
  destruct (decide (_ ∈ _)); [exact Hinv |].
  destruct (decide (_ = "/login")).
  { pose proof (login_identity_invariant w (cli st) Hinv) as H.
    by destruct (login w (cli st)). }
  destruct (decide (_ = "/logout")); [by left |].
  destruct (decide (_ = "/status")); [exact Hinv |].
  destruct (decide (_ = "/new")); [exact Hinv |].
  repeat (destruct (decide (_ = _)); [by rewrite run_connect_state |]).
  destruct (startswith _ _).
  { destruct (after_first_space _); [by rewrite run_connect_state | exact Hinv]. }
  destruct (decide (_ = "")); [exact Hinv |].
  by rewrite (proj2 (send_one_call w st user_input)).
Qed.

(** C8: [logout] leaves the identity empty, also when called twice; a
    login followed by a logout leaves the identity of a configuration that
    never saw a login; [login], [logout] and every cycle of the loop keep
    the invariant that the identity is empty or the token is not. *)
Theorem logout_idempotent_identity_invariant (w1 w2 : world)
    (self : ZylchCLI) :
  identity (config (logout w1 self).1) = ("", "", "")
  /\ identity (config (logout w2 (logout w1 self).1).1) = ("", "", "")
  /\ identity (config (logout w2 (login w1 self).1).1)
     = identity (default_config (local_db_path (config self)))
  /\ identity_invariant (config (logout w1 self).1)
  /\ (identity_invariant (config self) ->
        identity_invariant (config (login w1 self).1))
  /\ (forall st input,
        identity_invariant (config (cli st)) ->
        identity_invariant
          (config (cli (state_of (chat_cycle w1 st input))))).
Proof.
  repeat split; try (by left).
  - apply login_identity_invariant.
  - intros st input. apply chat_cycle_identity_invariant.
Qed.

End SessionState.

(** ** Concrete sessions *)

Section Examples.
#[local] Existing Instance CPython.lib.
Import Scenario.

(** C3, counterexample: [hello] is neither a local nor a slash command; the
    stored token expired in 1970, so [check_auth] is false; the message is
    sent all the same. *)
Lemma chat_sent_with_expired_token :
  strip "hello" <> ""
  /\ is_local_command (lower (strip "hello")) = false
  /\ is_slash_command "hello" = false
  /\ check_auth world_up (cli (logged_in token_expired)) = Ret false
  /\ events_of (chat_cycle world_up (logged_in token_expired) (Some "hello"))
     = [Print Thinking; ApiSendChat "hello" None; Print (Reply "hello")].
Proof. repeat split; vm_compute; (reflexivity || discriminate). Qed.

(** The theorem of C3 on a logged-out session and on a logged-in one. *)
Lemma chat_message_dispatch_witness :
  chat_cycle world_up logged_out (Some "hello")
  = (logged_out, [Print NotLoggedInUseLogin], Continue)
  /\ List.filter is_remote_call
       (events_of (chat_cycle world_up (logged_in token_opaque) (Some "hello")))
     = [ApiSendChat "hello" None].
Proof.
  split.
  - apply (chat_message_dispatch world_up logged_out "hello");
      vm_compute; (reflexivity || discriminate).
  - apply (chat_message_dispatch world_up (logged_in token_opaque) "hello");
      vm_compute; (reflexivity || discriminate).
Defined.

(** C4, counterexample: [/unknowncmd] is a slash command and not a local
    one; with the expired token [check_auth] is false; the command is
    forwarded all the same. *)
Lemma slash_command_sent_with_expired_token :
  strip "/unknowncmd" <> ""
  /\ is_local_command (lower (strip "/unknowncmd")) = false
  /\ is_slash_command "/unknowncmd" = true
  /\ check_auth world_up (cli (logged_in token_expired)) = Ret false
  /\ events_of
       (chat_cycle world_up (logged_in token_expired) (Some "/unknowncmd"))
     = [Print Thinking; ApiSendChat "/unknowncmd" None;
        Print (Reply "/unknowncmd")].
Proof. repeat split; vm_compute; (reflexivity || discriminate). Qed.

(** The theorem of C4 on [/unknowncmd] and a logged-in session. *)
Lemma slash_command_forwarded_witness :
  List.filter is_remote_call
    (events_of
       (chat_cycle world_up (logged_in token_opaque) (Some "/unknowncmd")))
  = [ApiSendChat "/unknowncmd" None].
Proof.
  apply (slash_command_forwarded world_up (logged_in token_opaque)
           "/unknowncmd");
    vm_compute; (reflexivity || discriminate).
Defined.

(** C5, counterexample: the server rejects the session; afterwards the
    state is what it was, the token is still there, [check_auth] still
    holds, and the next line is sent again. *)
Lemma auth_failure_keeps_session :
  send_chat_message world_rejecting "hello" None = Raise ZylchAuthError
  /\ state_of
       (chat_cycle world_rejecting (logged_in token_opaque) (Some "hello"))
     = logged_in token_opaque
  /\ session_token (config (cli (logged_in token_opaque))) = "tok"
  /\ check_auth world_rejecting (cli (logged_in token_opaque)) = Ret true
  /\ events_of
       (chat_cycle world_rejecting
          (state_of
             (chat_cycle world_rejecting (logged_in token_opaque)
                (Some "hello")))
          (Some "again"))
     = [Print Thinking; ApiSendChat "again" None; Print SessionExpired].
Proof. repeat split; vm_compute; reflexivity. Qed.

(** The theorem of C5 on a server that rejects the session. *)
Lemma remote_failure_reported_witness :
  chat_cycle world_rejecting (logged_in token_opaque) (Some "hello")
  = (logged_in token_opaque,
     [Print Thinking; ApiSendChat "hello" None; Print SessionExpired],
     Continue).
Proof.
  apply (remote_failure_reported world_rejecting (logged_in token_opaque)
           "hello");
    vm_compute; (reflexivity || discriminate).
Defined.

(** The theorem of C7 on [ /New ], [/LOGOUT] and a line of spaces. *)
Lemma local_auth_commands_not_forwarded_witness :
  chat_cycle world_up (logged_in token_opaque) (Some " /New ")
  = ({| cli := cli (logged_in token_opaque); session_id := None |},
     [Print NewConversation], Continue)
  /\ control_of (chat_cycle world_up (logged_in token_opaque) (Some "/LOGOUT"))
     = Continue
  /\ chat_cycle world_up (logged_in token_opaque) (Some "   ")
     = (logged_in token_opaque, [], Continue).
Proof.
  pose proof (local_auth_commands_not_forwarded world_up
                (logged_in token_opaque) " /New ") as (_ & Hnew & _).
  pose proof (local_auth_commands_not_forwarded world_up
                (logged_in token_opaque) "/LOGOUT") as (Hlocal & _ & _).
  pose proof (local_auth_commands_not_forwarded world_up
                (logged_in token_opaque) "   ") as (_ & _ & Hblank).
  split; [| split].
  - apply Hnew. reflexivity.
  - apply Hlocal. rewrite !elem_of_cons. right. left. reflexivity.
  - apply Hblank. reflexivity.
Defined.

(** The theorem of C8 on a successful login followed by a logout. *)
Lemma logout_idempotent_identity_invariant_witness :
  identity_invariant (config (login world_login_ok (cli logged_out)).1)
  /\ identity (config (login world_login_ok (cli logged_out)).1)
     = ("tok", "u1", "a@b.c")
  /\ identity
       (config (logout world_up (login world_login_ok (cli logged_out)).1).1)
     = ("", "", "").
Proof.
  pose proof (logout_idempotent_identity_invariant world_login_ok world_up
                (cli logged_out)) as (_ & _ & Hboth & _ & Hlogin & _).
  split; [| split].
  - apply Hlogin. left. reflexivity.
  - vm_compute. reflexivity.
  - exact Hboth.
Defined.

(** The theorem of C9 on an OAuth flow that times out. *)
Lemma login_failure_changes_nothing_witness :
  config (login world_up (cli (logged_in token_opaque))).1
  = config (cli (logged_in token_opaque))
  /\ config_file (login world_up (cli (logged_in token_opaque))).1 = None
  /\ client_token (login world_up (cli (logged_in token_opaque))).1 = "tok".
Proof.
  apply (login_failure_changes_nothing world_up (cli (logged_in token_opaque))).
  exact I.
Defined.

End Examples.

(** * Further properties of the code *)

(** ** The token codec: segments *)

Lemma split_no_separator (sep : ascii) (s : string) :
  contains sep s = false -> split sep s = [s].
Proof.
  induction s as [|c s IH]; simpl; [reflexivity |].
  intros H. apply orb_false_iff in H as [Hc Hs].
  rewrite Hc, (IH Hs). reflexivity.
Qed.

Lemma split_append (sep : ascii) (h r : string) :
  contains sep h = false ->
  split sep (h +:+ String sep r) = h :: split sep r.
Proof.
  induction h as [|c h IH]; intros H.
  - change ("" +:+ String sep r) with (String sep r). simpl.
    by rewrite Ascii.eqb_refl.
  - simpl in H. apply orb_false_iff in H as [Hc Hh].
    change (String c h +:+ String sep r) with (String c (h +:+ String sep r)).
    simpl. rewrite Hc, (IH Hh). reflexivity.
Qed.

Lemma split_three_segments (h p s : string) :
  contains "." h = false -> contains "." p = false ->
  contains "." s = false ->
  split "." (h +:+ "." +:+ p +:+ "." +:+ s) = [h; p; s].
Proof.
  intros Hh Hp Hs.
  change ("." +:+ p +:+ "." +:+ s) with (String "." (p +:+ String "." s)).
  rewrite (split_append "." h _ Hh), (split_append "." p _ Hp).
  by rewrite (split_no_separator "." s Hs).
Qed.

Section Segments.
Context {lib : PyLib}.

(** X1: the result of [parse_jwt_expiry] on a three-segment token depends
    on the second segment only: header and signature are never read. *)
Theorem parse_jwt_expiry_reads_payload_only (h p s h' s' : string) :
  contains "." h = false -> contains "." p = false ->
  contains "." s = false -> contains "." h' = false ->
  contains "." s' = false ->
  parse_jwt_expiry (h +:+ "." +:+ p +:+ "." +:+ s)
  = parse_jwt_expiry (h' +:+ "." +:+ p +:+ "." +:+ s').
Proof.
  intros Hh Hp Hs Hh' Hs'. unfold parse_jwt_expiry, parse_jwt_expiry_body.
  by rewrite !split_three_segments.
Qed.

(** X2: once a token is reported expired with an integer number of
    seconds, it is reported expired at every later time, with the seconds
    remaining lowered by the time elapsed. *)
Theorem check_token_status_stays_expired (now later r : Z) (token : string) :
  (now <= later)%Z ->
  check_token_status now token = Ret (false, PInt r) ->
  check_token_status later token = Ret (false, PInt (r - (later - now))).
Proof.
  intros Hle. unfold check_token_status.
  destruct (decide (token = "")); [discriminate |].
  destruct (parse_jwt_expiry token) as [|b|z|f| | |]; simpl; try discriminate.
  - intros H. injection H as Hv Hr. subst r.
    destruct b; simpl in *; try discriminate.
    + do 2 f_equal; [| f_equal; lia].
      apply Z.ltb_ge. apply Z.ltb_ge in Hv. lia.
    + do 2 f_equal; [| f_equal; lia].
      apply Z.ltb_ge. lia.
  - intros H. injection H as Hv Hr. subst r.
    do 2 f_equal; [| f_equal; lia].
    apply Z.ltb_ge. apply Z.ltb_ge in Hv. lia.
Qed.

End Segments.

(** ** The dispatcher, case by case *)

Lemma prefix_append (p s : string) :
  String.prefix p s = true -> exists r, s = p +:+ r.
Proof.
  revert s. induction p as [|c p IH]; intros s H.
  - by exists s.
  - destruct s as [|c' s]; simpl in H; [discriminate |].
    destruct (Ascii.ascii_dec c c') as [->|]; [| discriminate].
    destruct (IH s H) as [r ->]. by exists r.
Qed.

Lemma prefix_of_append (p r : string) : String.prefix p (p +:+ r) = true.
Proof.
  induction p as [|c p IH]; [by destruct r |].
  change (String c p +:+ r) with (String c (p +:+ r)). simpl.
  by destruct (Ascii.ascii_dec c c).
Qed.

Lemma connect_prefix_rest (cmd : string) :
  startswith cmd "/connect " = true ->
  exists rest, cmd = "/connect " +:+ rest /\ after_first_space cmd = Ret rest.
Proof.
  intros H. destruct (prefix_append _ _ H) as [rest ->]. by exists rest.
Qed.

Section Cases.
Context {lib : PyLib}.

Lemma chat_cycle_cases (w : world) (st : session) (user_input : string) :
  cycle_case w st user_input (chat_cycle w st (Some user_input)).
Proof.
  unfold chat_cycle.
  destruct (decide (strip user_input = "")) as [Hblank|Hblank];
    [by constructor |].
  cbv zeta.
  destruct (decide (_ ∈ _)) as [Hquit|Hquit]; [by constructor |].
  destruct (decide (_ = "/login")) as [Hcmd|Hlogin].
  { destruct (login w (cli st)) as [self events] eqn:E.
    pose proof (case_login w st user_input Hcmd) as H. by rewrite E in H. }
  destruct (decide (_ = "/logout")) as [Hcmd|Hlogout].
  { by apply case_logout. }
  destruct (decide (_ = "/status")) as [Hcmd|Hstatus]; [by constructor |].
  destruct (decide (_ = "/new")) as [Hcmd|Hnew]; [by constructor |].
  destruct (decide (_ = "/connect")) as [Hcmd|Hconnect].
  { apply case_connect. unfold is_connect_command. by rewrite Hcmd. }
  repeat (destruct (decide (_ = _)) as [Hcmd|?];
          [apply case_connect; unfold is_connect_command; by rewrite Hcmd |]).
  destruct (startswith _ _) eqn:Hpre.
  { destruct (connect_prefix_rest _ Hpre) as (rest & _ & ->).
    apply case_connect. unfold is_connect_command. rewrite Hpre.
    apply orb_true_r. }
  assert (is_local_command (lower (strip user_input)) = false) as Hloc.
  { unfold is_local_command. rewrite Hpre, orb_false_r.
    apply bool_decide_eq_false. rewrite !elem_of_cons, elem_of_nil in *.
    tauto. }
  destruct (decide (_ = "")); by constructor.
Qed.

End Cases.

(** ** The loop *)

Section Loop.
Context {lib : PyLib}.

Lemma chat_loop_break (w : world) (st st' : session) (input : option string)
    (events : list event) (rest : list (world * option string)) :
  chat_cycle w st input = (st', events, Break) ->
  chat_loop ((w, input) :: rest) st = (st', Print BlankLine :: events).
Proof. intros H. cbn [chat_loop]. by rewrite H. Qed.

Lemma chat_loop_continue (w : world) (st st' : session)
    (input : option string) (events : list event)
    (rest : list (world * option string)) :
  chat_cycle w st input = (st', events, Continue) ->
  chat_loop ((w, input) :: rest) st
  = ((chat_loop rest st').1,
     Print BlankLine :: (events ++ (chat_loop rest st').2)%list).
Proof.
  intros H. cbn [chat_loop]. rewrite H. by destruct (chat_loop rest st').
Qed.


(** X3: a quit alias, in any case and with surrounding blanks, or the end
    of the input ends the loop: the state is untouched, only the goodbye is
    printed, and nothing after it is read. *)
Theorem quit_ends_the_loop (w : world) (st : session)
    (input : option string) (rest : list (world * option string)) :
  input = None \/ command_of input ∈ ["/quit"; "/exit"; "/q"] ->
  chat_loop ((w, input) :: rest) st
  = (st, [Print BlankLine;
          Print (if input is None then GoodbyeInterrupted else Goodbye)]).
Proof.
  intros H. apply chat_loop_break.
  destruct input as [user_input|]; [| reflexivity].
  destruct H as [H|H]; [discriminate |]. simpl in H.
  unfold chat_cycle.
  destruct (decide (strip user_input = "")) as [Hblank|_].
  { rewrite Hblank in H. cbn in H. rewrite !elem_of_cons, elem_of_nil in H.
    intuition discriminate. }
  cbv zeta. by destruct (decide (_ ∈ _)).
Qed.

Lemma send_no_session_write (w : world) (st : session) (user_input : string) :
  List.filter is_session_write (events_of (send w st user_input)) = [].
Proof.
  unfold send, events_of.
  destruct (send_chat_message w user_input (session_id st)) as [r|e]; simpl.
  - by destruct (truthy (resp_metadata r) && debug_logging w).
  - by destruct e.
Qed.

Lemma run_connect_no_session_write (w : world) (st : session)
    (service : option string) (reset : bool) :
  List.filter is_session_write (events_of (run_connect w st service reset))
  = [].
Proof.
  unfold run_connect, connect, events_of.
  destruct (check_auth w (cli st)) as [[|]|e]; simpl; try reflexivity.
  destruct reset; simpl; try reflexivity.
  destruct (truthy service); simpl; try reflexivity.
  repeat (destruct (decide _); simpl; try reflexivity).
Qed.

(** X4: only [/login] and [/logout] write the session: every other line,
    and the end of the input, leaves [self.config], the configuration file
    and the client's token as they were, and neither saves the
    configuration nor sets the client's token. *)
Theorem session_written_only_by_login_and_logout (w : world) (st : session)
    (input : option string) :
  command_of input <> "/login" -> command_of input <> "/logout" ->
  cli (state_of (chat_cycle w st input)) = cli st
  /\ List.filter is_session_write (events_of (chat_cycle w st input)) = [].
Proof.
  intros Hlogin Hlogout. destruct input as [user_input|]; [| done].
  simpl in Hlogin, Hlogout.
  destruct (chat_cycle_cases w st user_input); try done.
  - split; [reflexivity |]. unfold events_of, status. simpl.
    by destruct (decide (_ = "")).
  - split; [by rewrite run_connect_state | apply run_connect_no_session_write].
  - split; [apply send_one_call | apply send_no_session_write].
Qed.




(** The object that [__init__] builds starts in that state. *)
Lemma init_client_in_sync (file : option CLIConfig) (db : string) :
  client_in_sync (init file db).
Proof. by intros _. Qed.

Lemma chat_cycle_logged_out (w : world) (st : session)
    (input : option string) :
  session_token (config (cli st)) = "" ->
  command_of input <> "/login" ->
  session_token (config (cli (state_of (chat_cycle w st input)))) = ""
  /\ Forall allowed_logged_out (events_of (chat_cycle w st input)).
Proof.
  intros Htok Hlogin. destruct input as [user_input|].
  2:{ split; [exact Htok |]. by repeat constructor. }
  simpl in Hlogin.
  destruct (chat_cycle_cases w st user_input); try done;
    try (split; [try exact Htok; reflexivity | by repeat constructor]).
  - split; [exact Htok |]. unfold events_of, status. simpl.
    destruct (decide (_ = "")); [| done]. by repeat constructor.
  - unfold run_connect, connect, check_auth.
    destruct (decide (_ = "")); [| done]. simpl.
    split; [exact Htok |]. by repeat constructor.
Qed.

(** X6: a session that starts without a token sends no message, starts no
    connect flow and no OAuth flow, and stays without a token, for as long
    as [/login] is not typed. *)
Theorem logged_out_session_stays_silent
    (script : list (world * option string)) (st : session) :
  session_token (config (cli st)) = "" ->
  Forall (fun step => command_of step.2 <> "/login") script ->
  session_token (config (cli (chat_loop script st).1)) = ""
  /\ Forall allowed_logged_out (chat_loop script st).2.
Proof.
  revert st. induction script as [|[w input] rest IH]; intros st Htok Hall.
  - split; [exact Htok | constructor].
  - apply Forall_cons in Hall as [Hhead Hrest]. simpl in Hhead.
    destruct (chat_cycle_logged_out w st input Htok Hhead) as [Htok' Hev].
    destruct (chat_cycle w st input) as [[st' events] ctl] eqn:E.
    unfold state_of, events_of in Htok', Hev. simpl in Htok', Hev.
    destruct ctl.
    + rewrite (chat_loop_continue _ _ _ _ _ _ E). simpl.
      destruct (IH st' Htok' Hrest) as [Hfinal Hevents].
      split; [exact Hfinal |].
      constructor; [exact I |]. by apply Forall_app.
    + rewrite (chat_loop_break _ _ _ _ _ _ E). simpl.
      split; [exact Htok' |]. by constructor.
Qed.

(** X7: the session id is threaded from reply to request: after a reply,
    the next line that is sent carries the session id of that reply, and
    after [/new] it carries none. *)
Theorem session_id_threaded (w1 w2 w3 : world) (st : session)
    (first second new : string) (reply : chat_response) :
  strip first <> "" -> is_local_command (lower (strip first)) = false ->
  strip second <> "" -> is_local_command (lower (strip second)) = false ->
  session_token (config (cli st)) <> "" ->
  send_chat_message w1 first (session_id st) = Ret reply ->
  lower (strip new) = "/new" ->
  List.filter is_remote_call
    (events_of (chat_cycle w2 (state_of (chat_cycle w1 st (Some first)))
                  (Some second)))
  = [ApiSendChat second (resp_session_id reply)]
  /\ List.filter is_remote_call
       (events_of
          (chat_cycle w2
             (state_of
                (chat_cycle w3 (state_of (chat_cycle w1 st (Some first)))
                   (Some new)))
             (Some second)))
     = [ApiSendChat second None].
Proof.
  intros Hb1 Hl1 Hb2 Hl2 Htok Hreply Hnew.
  assert (Hst1 : state_of (chat_cycle w1 st (Some first))
                 = {| cli := cli st; session_id := resp_session_id reply |}).
  { rewrite chat_cycle_not_local by done.
    destruct (decide (_ = "")); [done |]. unfold send. by rewrite Hreply. }
  rewrite Hst1. rewrite (chat_cycle_new w3 _ new Hnew).
  rewrite !chat_cycle_not_local by done. unfold state_of. simpl.
  destruct (decide (_ = "")); [done |].
  split; apply send_one_call.
Qed.

(** X8: a successful OAuth result (no error, a non-empty token) makes
    [login] store the token with the owner id and email of the result, or
    [''] for a missing one, keep the other settings, save that
    configuration and hand the token to the API client; the next line that
    is not a local command is then sent, with the session id it had. *)
Theorem login_success_opens_session (w w' : world) (st : session)
    (r : gmap string string) (t user_input : string) :
  initiate_browser_login w (api_server_url (config (cli st))) 8765
  = Ret (Some r) ->
  r !! "error" = None -> r !! "token" = Some t -> t <> "" ->
  strip user_input <> "" ->
  is_local_command (lower (strip user_input)) = false ->
  (login w (cli st)).1
  = {| config := set_identity (config (cli st)) t
                   (default "" (r !! "owner_id")) (default "" (r !! "email"));
       client_token := t;
       config_file := Some (set_identity (config (cli st)) t
                              (default "" (r !! "owner_id"))
                              (default "" (r !! "email"))) |}
  /\ List.filter is_remote_call
       (events_of
          (chat_cycle w' (with_cli st (login w (cli st)).1) (Some user_input)))
     = [ApiSendChat user_input (session_id st)].
Proof.
  intros Hres Herr Htok Hne Hblank Hloc.
  assert (Hlogin : (login w (cli st)).1
    = {| config := set_identity (config (cli st)) t
                     (default "" (r !! "owner_id")) (default "" (r !! "email"));
         client_token := t;
         config_file := Some (set_identity (config (cli st)) t
                                (default "" (r !! "owner_id"))
                                (default "" (r !! "email"))) |}).
  { unfold login, login_body. rewrite Hres. simpl. rewrite Herr, Htok. simpl.
    by rewrite bool_decide_eq_false_2. }
  split; [exact Hlogin |].
  rewrite chat_cycle_not_local by done. rewrite Hlogin. simpl.
  destruct (decide (t = "")); [done |].
  apply (send_one_call w' (with_cli st _) user_input).
Qed.

Lemma connect_command_not_other (cmd : string) :
  is_connect_command cmd = true ->
  cmd <> "" /\ (cmd ∉ ["/quit"; "/exit"; "/q"]) /\ cmd <> "/login"
  /\ cmd <> "/logout" /\ cmd <> "/status" /\ cmd <> "/new"
  /\ is_local_command cmd = true.
Proof.
  unfold is_connect_command. intros H. apply orb_true_iff in H as [H|H].
  - apply bool_decide_eq_true in H. subst cmd.
    repeat split; try discriminate.
    intros Hin. rewrite !elem_of_cons, elem_of_nil in Hin.
    intuition discriminate.
  - destruct (prefix_append _ _ H) as [rest ->].
    repeat split; try (intros Heq; vm_compute in Heq; discriminate Heq).
    + intros Hin. rewrite !elem_of_cons, elem_of_nil in Hin.
      destruct Hin as [Heq|[Heq|[Heq|[]]]]; vm_compute in Heq;
        discriminate Heq.
    + unfold is_local_command. rewrite H. apply orb_true_r.
Qed.

Lemma chat_cycle_connect (w : world) (st : session) (user_input : string) :
  is_connect_command (lower (strip user_input)) = true ->
  exists service reset,
    chat_cycle w st (Some user_input) = run_connect w st service reset.
Proof.
  intros Hcmd.
  destruct (connect_command_not_other _ Hcmd)
    as (Hne & Hquit & Hlogin & Hlogout & Hstatus & Hnew & Hloc).
  destruct (chat_cycle_cases w st user_input) as
    [Hc|Hc|Hc|Hc|Hc|Hc|service reset Hc|Hb Hc Ht|Hb Hc Ht];
    try contradiction; try congruence.
  - exfalso. apply Hne. by rewrite Hc.
  - by exists service, reset.
Qed.

(** X9: every form of [/connect], also [/connect] alone, asked of a session
    that [check_auth] rejects (no token, or an expired one) prints the
    not-logged-in message and nothing else: no flow starts, nothing changes,
    and the loop goes on. *)
Theorem connect_requires_authentication (w : world) (st : session)
    (user_input : string) :
  is_connect_command (lower (strip user_input)) = true ->
  check_auth w (cli st) = Ret false ->
  chat_cycle w st (Some user_input)
  = (st, [Print NotLoggedInRunLogin], Continue).
Proof.
  intros Hcmd Hauth.
  destruct (chat_cycle_connect w st user_input Hcmd) as (service & reset & ->).
  unfold run_connect, connect. by rewrite Hauth.
Qed.

(** X10: when [check_auth] raises, as it does for a stored token whose
    [exp] is not a number, any form of [/connect] ends [chat]: the
    exception reaches the handler around the loop, the error is printed and
    no further line is read. *)
Theorem connect_exception_ends_chat (w : world) (st : session)
    (user_input : string) (e : exn) (rest : list (world * option string)) :
  is_connect_command (lower (strip user_input)) = true ->
  check_auth w (cli st) = Raise e ->
  chat_loop ((w, Some user_input) :: rest) st
  = (st, [Print BlankLine; Print (ChatError e)]).
Proof.
  intros Hcmd Hauth. apply chat_loop_break.
  destruct (chat_cycle_connect w st user_input Hcmd) as (service & reset & ->).
  unfold run_connect, connect. by rewrite Hauth.
Qed.

End Loop.

(** ** [strip] and [lower] *)

Lemma isspace_lower_char (c : ascii) : isspace (lower_char c) = isspace c.
Proof. by destruct c as [[] [] [] [] [] [] [] []]. Qed.

Lemma lower_char_idempotent (c : ascii) :
  lower_char (lower_char c) = lower_char c.
Proof. by destruct c as [[] [] [] [] [] [] [] []]. Qed.

Lemma lower_idempotent (s : string) : lower (lower s) = lower s.
Proof.
  induction s as [|c s IH]; simpl; [reflexivity |].
  by rewrite lower_char_idempotent, IH.
Qed.

Lemma lower_append (s t : string) : lower (s +:+ t) = lower s +:+ lower t.
Proof.
  induction s as [|c s IH]; [reflexivity |].
  change (String c s +:+ t) with (String c (s +:+ t)). simpl. rewrite IH.
  reflexivity.
Qed.

Lemma rstrip_empty (s : string) : rstrip s = "" <-> all_space s = true.
Proof.
  induction s as [|c s IH]; simpl; [done |].
  destruct (rstrip s) eqn:E.
  - destruct (isspace c); simpl; [tauto |]. split; discriminate.
  - split; [discriminate |]. intros H. apply andb_true_iff in H as [_ H].
    apply IH in H. discriminate.
Qed.

Lemma all_space_lstrip (s : string) : all_space (lstrip s) = all_space s.
Proof.
  induction s as [|c s IH]; simpl; [reflexivity |].
  destruct (isspace c) eqn:E; simpl; [exact IH | by rewrite E].
Qed.

Lemma strip_empty (s : string) : strip s = "" <-> all_space s = true.
Proof. unfold strip. by rewrite rstrip_empty, all_space_lstrip. Qed.

Lemma rstrip_idempotent (s : string) : rstrip (rstrip s) = rstrip s.
Proof.
  induction s as [|c s IH]; simpl; [reflexivity |].
  destruct (rstrip s) as [|c' s'] eqn:E.
  - destruct (isspace c) eqn:Ec; simpl; [reflexivity | by rewrite Ec].
  - change (rstrip (String c (String c' s'))) with
      (match rstrip (String c' s') with
       | "" => if isspace c then "" else String c ""
       | r' => String c r'
       end).
    by rewrite IH.
Qed.

Lemma rstrip_lower (s : string) : rstrip (lower s) = lower (rstrip s).
Proof.
  induction s as [|c s IH]; simpl; [reflexivity |].
  rewrite IH. destruct (rstrip s); simpl.
  - rewrite isspace_lower_char. by destruct (isspace c).
  - reflexivity.
Qed.

Lemma lstrip_lower (s : string) : lstrip (lower s) = lower (lstrip s).
Proof.
  induction s as [|c s IH]; simpl; [reflexivity |].
  rewrite isspace_lower_char. by destruct (isspace c).
Qed.

Lemma strip_lower (s : string) : strip (lower s) = lower (strip s).
Proof. unfold strip. by rewrite lstrip_lower, rstrip_lower. Qed.

(** The command has no trailing white space and is in lower case. *)
Lemma command_normal (user_input : string) :
  rstrip (lower (strip user_input)) = lower (strip user_input)
  /\ lower (lower (strip user_input)) = lower (strip user_input).
Proof.
  split; [| apply lower_idempotent].
  unfold strip. by rewrite rstrip_lower, rstrip_idempotent.
Qed.

Lemma connect_rest_normal (user_input rest : string) :
  lower (strip user_input) = "/connect " +:+ rest ->
  strip rest <> "" /\ lower (strip rest) = strip rest.
Proof.
  intros Hcmd. destruct (command_normal user_input) as [Hr Hl].
  rewrite Hcmd in Hr, Hl. split.
  - intros Hblank. apply strip_empty, rstrip_empty in Hblank.
    change ("/connect " +:+ rest) with
      (String "/" (String "c" (String "o" (String "n" (String "n"
         (String "e" (String "c" (String "t" (String " " rest)))))))))
      in Hr.
    simpl in Hr. rewrite Hblank in Hr. vm_compute in Hr. discriminate Hr.
  - rewrite lower_append in Hl.
    change (lower "/connect ") with "/connect " in Hl.
    change ("/connect " +:+ lower rest) with
      (String "/" (String "c" (String "o" (String "n" (String "n"
         (String "e" (String "c" (String "t" (String " " (lower rest))))))))))
      in Hl.
    change ("/connect " +:+ rest) with
      (String "/" (String "c" (String "o" (String "n" (String "n"
         (String "e" (String "c" (String "t" (String " " rest)))))))))
      in Hl.
    injection Hl as Hl. by rewrite <- strip_lower, Hl.
Qed.

(** ** [/connect] *)

Lemma connect_append_inj (a b : string) :
  "/connect " +:+ a = "/connect " +:+ b -> a = b.
Proof.
  change ("/connect " +:+ a) with
    (String "/" (String "c" (String "o" (String "n" (String "n"
       (String "e" (String "c" (String "t" (String " " a))))))))).
  change ("/connect " +:+ b) with
    (String "/" (String "c" (String "o" (String "n" (String "n"
       (String "e" (String "c" (String "t" (String " " b))))))))).
  intros H. by injection H.
Qed.

Section ConnectDispatch.
Context {lib : PyLib}.

Lemma run_connect_named_service (w : world) (st : session) (service : string) :
  check_auth w (cli st) = Ret true ->
  service <> "" -> lower service = service ->
  run_connect w st (Some service) false
  = (st, connect_service_events service, Continue).
Proof.
  intros Hauth Hne Hlow. unfold run_connect, connect. rewrite Hauth. simpl.
  rewrite bool_decide_eq_false_2 by done. simpl. rewrite Hlow.
  unfold connect_service_events.
  by repeat (destruct (decide _); [reflexivity |]).
Qed.

(** X11: for a session that [check_auth] accepts, [/connect <name>], in
    any case and with any blanks around the name, runs the flow of the
    service named ([google], [microsoft], [anthropic]) and reports any
    other name as unknown.  The name is never empty, so this form never
    shows the status; and only the exact text [/connect --reset]
    disconnects: [--reset] after more than one blank is an unknown
    service. *)
Theorem connect_runs_named_service (w : world) (st : session)
    (user_input rest : string) :
  check_auth w (cli st) = Ret true ->
  lower (strip user_input) = "/connect " +:+ rest ->
  rest <> "--reset" ->
  strip rest <> ""
  /\ chat_cycle w st (Some user_input)
     = (st, connect_service_events (strip rest), Continue).
Proof.
  intros Hauth Hcmd Hreset.
  destruct (connect_rest_normal _ _ Hcmd) as [Hne Hlow].
  split; [exact Hne |].
  unfold chat_cycle.
  destruct (decide (strip user_input = "")) as [Hblank|_].
  { rewrite Hblank in Hcmd. vm_compute in Hcmd. discriminate Hcmd. }
  cbv zeta. rewrite Hcmd.
  destruct (decide (_ ∈ _)) as [Hin|_].
  { rewrite !elem_of_cons, elem_of_nil in Hin.
    destruct Hin as [Heq|[Heq|[Heq|[]]]]; vm_compute in Heq;
      discriminate Heq. }
  repeat (destruct (decide (_ = _)) as [Heq|_];
          [first
             [ vm_compute in Heq; discriminate Heq
             | apply (connect_append_inj rest) in Heq; subst rest;
               first [ by destruct Hreset
                     | by apply run_connect_named_service ] ] |]).
  unfold startswith. rewrite prefix_of_append.
  assert (after_first_space ("/connect " +:+ rest) = Ret rest) as ->
    by reflexivity.
  by apply run_connect_named_service.
Qed.

End ConnectDispatch.

(** ** Start-up *)

Section StartupProperties.
Context {lib : PyLib}.

(** X12: [main] enters [chat] only after a health check that returned the
    status [healthy]; when the check raises or reports anything else the
    process exits with code 1 and neither the stored session nor any
    other collaborator is touched. *)
Theorem main_requires_healthy_server (server_url : option string)
    (file : option CLIConfig) (db : string) (now : Z) (sv : services)
    (script : list (world * option string)) :
  (forall health,
     health_check sv = Ret health -> health !! "status" <> Some "healthy") ->
  main server_url file db now sv script = ((check_server sv).2, None, Exited 1)
  /\ Forall (fun e => e = CallHealthCheck \/ is_say e = true)
       (check_server sv).2.
Proof.
  intros Hbad. unfold main, check_server.
  destruct (health_check sv) as [health|e] eqn:Hh.
  - destruct (decide (health !! "status" = Some "healthy")) as [Hok|_].
    { by destruct (Hbad health eq_refl). }
    split; [reflexivity |].
    repeat (constructor; [first [by left | by right] |]). constructor.
  - split; [reflexivity |].
    repeat (constructor; [first [by left | by right] |]). constructor.
Qed.

(** X13: when [check_token_status] raises on the stored token, as it does
    for a token whose [exp] is not a number, [chat] lets the exception
    through before the loop starts: with a healthy server [main] dies with
    that exception and reads no line, so not even [/logout] can be typed. *)
Theorem main_dies_on_unreadable_expiry (server_url : option string)
    (file : option CLIConfig) (db : string) (now : Z) (sv : services)
    (script : list (world * option string)) (e : exn) :
  (check_server sv).1 = true ->
  check_token_status now (session_token (load_config file db)) = Raise e ->
  (main server_url file db now sv script).1.2 = None
  /\ (main server_url file db now sv script).2 = Died e.
Proof.
  intros Hhealthy Hraise. unfold main.
  destruct (check_server sv) as [healthy checked]. simpl in Hhealthy.
  subst healthy. simpl.
  assert (Htoken :
    session_token
      (config (if truthy server_url
               then set_server_url (init file db) (default "" server_url)
               else init file db))
    = session_token (load_config file db)).
  { by destruct (truthy server_url). }
  generalize dependent
    (if truthy server_url
     then set_server_url (init file db) (default "" server_url)
     else init file db).
  intros self Htoken.
  unfold chat, show_startup_status. rewrite Htoken.
  destruct (decide (session_token (load_config file db) = "")) as [Hempty|_].
  { rewrite Hempty in Hraise. discriminate Hraise. }
  rewrite Hraise. by split.
Qed.

(** X14: [_show_startup_status] asks the server nothing when no token is
    stored or the stored token has expired; it never revokes, saves a key
    or starts a flow; and once [check_token_status] has returned it cannot
    raise, whatever the status calls do. *)
Theorem startup_status_is_quiet (now : Z) (sv : services) (self : ZylchCLI) :
  (session_token (config self) = ""
   \/ (exists v, check_token_status now (session_token (config self))
                 = Ret (false, v)) ->
   forallb is_say (show_startup_status now sv self).1 = true)
  /\ List.filter is_service_write (show_startup_status now sv self).1 = []
  /\ (forall r,
        check_token_status now (session_token (config self)) = Ret r ->
        (show_startup_status now sv self).2 = Ret ()).
Proof.
  unfold show_startup_status, startup_anthropic, startup_google.
  destruct (decide (session_token (config self) = "")) as [Hempty|Hne].
  { repeat split. }
  destruct (check_token_status now (session_token (config self)))
    as [[valid v]|e] eqn:Hstatus.
  - destruct valid; simpl.
    + split; [| split].
      * intros [H|[v' H]]; [contradiction | discriminate].
      * destruct (get_anthropic_status sv) as [[[]]|];
          destruct (get_google_status sv) as [[[] [] ?]|]; reflexivity.
      * reflexivity.
    + repeat split.
  - split; [| split].
    + intros [H|[v' H]]; [contradiction | discriminate].
    + reflexivity.
    + intros r H. discriminate.
Qed.

End StartupProperties.

(** ** The server URL *)

Lemma login_targets_server (w : world) (self : ZylchCLI) :
  api_server_url (config (login w self).1) = api_server_url (config self)
  /\ Forall (targets_server (api_server_url (config self))) (login w self).2.
Proof.
  unfold login, login_body.
  destruct (initiate_browser_login w (api_server_url (config self)) 8765)
    as [[r|]|e]; simpl; try (split; [reflexivity | by repeat constructor]).
  destruct (r !! "error"); simpl;
    try (split; [reflexivity | by repeat constructor]).
  destruct (truthy (r !! "token")); simpl;
    split; try reflexivity; by repeat constructor.
Qed.

Section ServerUrl.
Context {lib : PyLib}.

Lemma send_targets_server (w : world) (st : session) (user_input url : string) :
  Forall (targets_server url) (events_of (send w st user_input)).
Proof.
  unfold send, events_of.
  destruct (send_chat_message w user_input (session_id st)) as [r|e]; simpl.
  - destruct (truthy (resp_metadata r) && debug_logging w);
      by repeat constructor.
  - destruct e; by repeat constructor.
Qed.

Lemma run_connect_targets_server (w : world) (st : session)
    (service : option string) (reset : bool) (url : string) :
  Forall (targets_server url) (events_of (run_connect w st service reset)).
Proof.
  unfold run_connect, connect, events_of.
  destruct (check_auth w (cli st)) as [[|]|e]; simpl;
    try by repeat constructor.
  destruct reset; simpl; try by repeat constructor.
  destruct (truthy service); simpl; try by repeat constructor.
  repeat (destruct (decide _); simpl; try by repeat constructor).
Qed.

Lemma chat_cycle_targets_server (w : world) (st : session)
    (input : option string) :
  api_server_url (config (cli (state_of (chat_cycle w st input))))
  = api_server_url (config (cli st))
  /\ Forall (targets_server (api_server_url (config (cli st))))
       (events_of (chat_cycle w st input)).
Proof.
  destruct input as [user_input|];
    [| split; [reflexivity | by repeat constructor]].
  destruct (chat_cycle_cases w st user_input);
    try (split; [reflexivity | by repeat constructor]).
  - apply login_targets_server.
  - split; [reflexivity |]. unfold events_of, status. simpl.
    destruct (decide (_ = "")); by repeat constructor.
  - split; [by rewrite run_connect_state | apply run_connect_targets_server].
  - split; [by rewrite (proj2 (send_one_call w st user_input))
           | apply send_targets_server].
Qed.

Lemma chat_loop_targets_server (script : list (world * option string))
    (st : session) :
  api_server_url (config (cli (chat_loop script st).1))
  = api_server_url (config (cli st))
  /\ Forall (targets_server (api_server_url (config (cli st))))
       (chat_loop script st).2.
Proof.
  revert st. induction script as [|[w input] rest IH]; intros st.
  - split; [reflexivity | constructor].
  - destruct (chat_cycle_targets_server w st input) as [Hurl Hev].
    destruct (chat_cycle w st input) as [[st' events] ctl] eqn:E.
    unfold state_of, events_of in Hurl, Hev. simpl in Hurl, Hev.
    destruct ctl.
    + rewrite (chat_loop_continue _ _ _ _ _ _ E). simpl.
      destruct (IH st') as [Hfinal Hevents]. rewrite Hurl in Hfinal, Hevents.
      split; [exact Hfinal |].
      constructor; [exact I |]. by apply Forall_app.
    + rewrite (chat_loop_break _ _ _ _ _ _ E). simpl.
      split; [exact Hurl |]. by constructor.
Qed.

(** X15: the URL given with [--server-url] replaces the configured one for
    the whole run: every OAuth login of the run goes to it, on port 8765,
    and every configuration the run saves, at [/login] or [/logout], names
    it, so the override ends up in the configuration file. *)
Theorem server_url_override_is_used_and_saved (url : string)
    (file : option CLIConfig) (db : string) (now : Z) (sv : services)
    (script : list (world * option string)) (run : session * list event) :
  url <> "" ->
  (main (Some url) file db now sv script).1.2 = Some run ->
  api_server_url (config (cli run.1)) = url
  /\ Forall (targets_server url) run.2.
Proof.
  intros Hurl. unfold main. simpl.
  rewrite bool_decide_eq_false_2 by done. simpl.
  destruct (check_server sv) as [[|] checked]; simpl; [| discriminate].
  unfold chat.
  destruct (show_startup_status now sv _) as [shown [[]|e]]; simpl;
    [| discriminate].
  intros H. injection H as <-.
  apply (chat_loop_targets_server script
           {| cli := set_server_url (init file db) url;
              session_id := None |}).
Qed.

End ServerUrl.

(** ** The service flows *)

(** X16: [_disconnect_all_services] calls nothing without the user's
    confirmation.  With it, the Anthropic key is revoked exactly when the
    server reports one and Google exactly when the server reports
    credentials, the second independently of how the first step went; and
    the last line says that all services are disconnected, also when a
    status query or a revocation raised. *)
Theorem disconnect_needs_confirmation (sv : services) :
  (confirm sv AskDisconnectAll = false ->
     disconnect_all_services sv
     = [Say DisconnectPanel; Ask AskDisconnectAll; Say Cancelled])
  /\ (confirm sv AskDisconnectAll = true ->
        List.filter is_service_write (disconnect_all_services sv)
        = ((if anthropic_key_stored sv then [CallRevokeAnthropic] else [])
           ++ (if google_credentials_stored sv then [CallRevokeGoogle]
               else []))%list
        /\ last (disconnect_all_services sv) = Some (Say AllServicesDisconnected)).
Proof.
  unfold disconnect_all_services, anthropic_key_stored,
    google_credentials_stored.
  split; intros ->; simpl; [reflexivity |].
  destruct (get_anthropic_status sv) as [[[]]|];
    destruct (get_google_status sv) as [[[] ? ?]|];
    destruct (revoke_anthropic sv); destruct (revoke_google sv);
    split; reflexivity.
Qed.

(** X17: [_connect_service] starts at most one OAuth flow, with the stored
    token, the configured server and port 8766.  For [google] it first asks
    the server and starts none when Google is connected with a token that
    has not expired, or when the query raises; for any other service it
    starts the flow without asking. *)
Theorem connect_service_oauth (sv : services) (self : ZylchCLI)
    (service : string) :
  List.filter is_service_write (connect_service sv self service)
  = (if decide (service = "google")
     then match get_google_status sv with
          | Raise _ => []
          | Ret _ =>
              if google_connected sv then []
              else [CallServiceConnect (api_server_url (config self))
                      service (session_token (config self)) 8766]
          end
     else [CallServiceConnect (api_server_url (config self)) service
             (session_token (config self)) 8766])
  /\ (CallGetGoogleStatus ∈ connect_service sv self service
      <-> service = "google").
Proof.
  assert (Hoauth :
    List.filter is_service_write (service_oauth sv self service)
    = [CallServiceConnect (api_server_url (config self)) service
         (session_token (config self)) 8766]
    /\ (CallGetGoogleStatus ∉ service_oauth sv self service)).
  { unfold service_oauth.
    destruct (initiate_service_connect sv _ _ _ _) as [[r|]|e]; simpl.
    - destruct (r !! "error"); simpl.
      + split; [reflexivity |]. intros H.
        rewrite !elem_of_cons, elem_of_nil in H. intuition discriminate.
      + destruct (negb _ && negb _); simpl; (split; [reflexivity |]);
          intros H; rewrite !elem_of_cons, elem_of_nil in H;
          intuition discriminate.
    - split; [reflexivity |]. intros H.
      rewrite !elem_of_cons, elem_of_nil in H. intuition discriminate.
    - split; [reflexivity |]. intros H.
      rewrite !elem_of_cons, elem_of_nil in H. intuition discriminate. }
  destruct Hoauth as [Hwrite Hnostatus].
  unfold connect_service, google_connected.
  destruct (decide (service = "google")) as [Hg|Hg].
  - split; [| split; [done | intros _; rewrite !elem_of_cons; auto]].
    destruct (get_google_status sv) as [status|e]; simpl; [| reflexivity].
    destruct (has_credentials status && negb (expired status)); simpl;
      [reflexivity | exact Hwrite].
  - split; [exact Hwrite |]. split; [| done].
    intros H. apply elem_of_cons in H as [H|H]; [discriminate | contradiction].
Qed.

(** ** The Anthropic key *)

Lemma rstrip_cons_not_space (c : ascii) (r : string) :
  isspace c = false -> rstrip (String c r) = String c (rstrip r).
Proof. intros Hc. simpl. rewrite Hc. by destruct (rstrip r). Qed.

Lemma lstrip_not_space (c : ascii) (r : string) :
  isspace c = false -> lstrip (String c r) = String c r.
Proof. intros Hc. simpl. by rewrite Hc. Qed.

Lemma lstrip_head (s : string) :
  lstrip s = "" \/ exists c r, lstrip s = String c r /\ isspace c = false.
Proof.
  induction s as [|c s IH]; simpl; [by left |].
  destruct (isspace c) eqn:Hc; [exact IH |]. right. by exists c, s.
Qed.

Lemma strip_idempotent (s : string) : strip (strip s) = strip s.
Proof.
  unfold strip. destruct (lstrip_head s) as [->|(c & r & -> & Hc)];
    [reflexivity |].
  rewrite (rstrip_cons_not_space c r Hc), (lstrip_not_space c _ Hc).
  rewrite <- (rstrip_cons_not_space c r Hc). apply rstrip_idempotent.
Qed.

Lemma strip_keeps_key_prefix (s : string) :
  startswith s "sk-ant-" = true ->
  strip s <> "" /\ startswith (strip s) "sk-ant-" = true.
Proof.
  intros H. destruct (prefix_append _ _ H) as [r ->].
  assert (Hstrip : strip ("sk-ant-" +:+ r) = "sk-ant-" +:+ rstrip r).
  { change ("sk-ant-" +:+ r) with
      (String "s" (String "k" (String "-" (String "a" (String "n"
         (String "t" (String "-" r))))))).
    unfold strip. rewrite lstrip_not_space by reflexivity.
    by rewrite !rstrip_cons_not_space by reflexivity. }
  rewrite Hstrip. split.
  - intros Heq. vm_compute in Heq. discriminate Heq.
  - apply prefix_of_append.
Qed.

Ltac find_in H :=
  first
    [ by apply elem_of_nil in H
    | apply elem_of_cons in H as [H|H]; [try discriminate H | find_in H] ].

Lemma save_anthropic_key_call (sv : services) (k key : string) :
  CallSetAnthropicKey key ∈ save_anthropic_key sv k ->
  key = strip k
  /\ (startswith key "sk-ant-" = true \/ confirm sv AskContinueAnyway = true).
Proof.
  unfold save_anthropic_key. cbv zeta.
  destruct (startswith (strip k) "sk-ant-") eqn:Hprefix; simpl.
  - intros H. apply elem_of_cons in H as [H|H].
    + injection H as ->. by split; [| left].
    + destruct (set_anthropic_key sv (strip k)) as [[[] ?]|]; find_in H.
  - destruct (confirm sv AskContinueAnyway) eqn:Hconfirm; simpl.
    + intros H. do 2 (apply elem_of_cons in H as [H|H]; [discriminate H |]).
      apply elem_of_cons in H as [H|H].
      * injection H as ->. by split; [| right].
      * destruct (set_anthropic_key sv (strip k)) as [[[] ?]|]; find_in H.
    + intros H. find_in H.
Qed.

Lemma choose_anthropic_key_call (sv : services) (key : string) :
  CallSetAnthropicKey key ∈ choose_anthropic_key sv ->
  key <> "" /\ strip key = key
  /\ (startswith key "sk-ant-" = true \/ confirm sv AskContinueAnyway = true).
Proof.
  unfold choose_anthropic_key. cbv zeta.
  assert (Hprompt :
    CallSetAnthropicKey key
    ∈ ([Say EmptyLine; AskApiKey]
       ++ (if negb (truthy (prompt_api_key sv))
              || bool_decide (strip (default "" (prompt_api_key sv)) = "")
           then [Say NoKeyProvided]
           else save_anthropic_key sv (default "" (prompt_api_key sv))))%list ->
    key <> "" /\ strip key = key
    /\ (startswith key "sk-ant-" = true
        \/ confirm sv AskContinueAnyway = true)).
  { intros H. apply elem_of_app in H as [H|H]; [find_in H |].
    destruct (negb _ || bool_decide _) eqn:Hcheck; [find_in H |].
    apply orb_false_iff in Hcheck as [_ Hblank].
    apply bool_decide_eq_false in Hblank.
    apply save_anthropic_key_call in H as [-> Hformat].
    split; [exact Hblank |]. split; [apply strip_idempotent | exact Hformat]. }
  destruct (truthy (environ_anthropic_key sv)
            && startswith (default "" (environ_anthropic_key sv)) "sk-ant-")
    eqn:Henv; simpl.
  - apply andb_true_iff in Henv as [Htruthy Hprefix].
    destruct (confirm sv AskUseEnvKey); simpl.
    + rewrite Htruthy. simpl. intros H.
      do 2 (apply elem_of_cons in H as [H|H]; [discriminate H |]).
      apply save_anthropic_key_call in H as [-> Hformat].
      destruct (strip_keeps_key_prefix _ Hprefix) as [Hne _].
      split; [exact Hne |]. split; [apply strip_idempotent | exact Hformat].
    + intros H.
      do 2 (apply elem_of_cons in H as [H|H]; [discriminate H |]).
      by apply Hprompt.
  - exact Hprompt.
Qed.

(** X18: whatever [_connect_anthropic] sends to the server as the key is
    not empty and has no blanks around it; a key that does not start with
    [sk-ant-] is sent only after the user confirmed; and when the server
    reports a stored key, a new one is sent only after the user agreed to
    replace it. *)
Theorem anthropic_key_is_checked_before_saving (sv : services)
    (key : string) :
  CallSetAnthropicKey key ∈ connect_anthropic sv ->
  key <> "" /\ strip key = key
  /\ (startswith key "sk-ant-" = true \/ confirm sv AskContinueAnyway = true)
  /\ (anthropic_key_stored sv = true -> confirm sv AskReplaceKey = true).
Proof.
  unfold connect_anthropic, anthropic_key_stored. intros H.
  apply elem_of_app in H as [H|H]; [find_in H |].
  destruct (get_anthropic_status sv) as [[[]]|e]; simpl in *.
  - do 2 (apply elem_of_cons in H as [H|H]; [discriminate H |]).
    destruct (confirm sv AskReplaceKey); simpl in H; [| find_in H].
    destruct (choose_anthropic_key_call sv key H) as (Hne & Hs & Hf).
    done.
  - destruct (choose_anthropic_key_call sv key H) as (Hne & Hs & Hf).
    repeat split; try done.
  - destruct (choose_anthropic_key_call sv key H) as (Hne & Hs & Hf).
    repeat split; try done.
Qed.

(** ** [sync] *)

Lemma then_do_events {E A B : Type} (m : trace E A) (f : A -> trace E B) :
  (then_do m f).1
  = (m.1 ++ match m.2 with Ret a => (f a).1 | Raise _ => [] end)%list.
Proof.
  unfold then_do. destruct m as [events [a|e]]; simpl.
  - by destruct (f a).
  - by rewrite app_nil_r.
Qed.

Lemma then_do_outcome {E A B : Type} (m : trace E A) (f : A -> trace E B) :
  (then_do m f).2 = match m.2 with Ret a => (f a).2 | Raise e => Raise e end.
Proof.
  unfold then_do. destruct m as [events [a|e]]; simpl;
    [by destruct (f a) | done].
Qed.

Lemma cache_all_complete (key : string) (cache : string -> item -> sync_event)
    (items : list item) :
  all_have key items ->
  cache_all key cache items
  = (map (fun x => cache (default "" (x !! key)) x) items, Ret ()).
Proof.
  induction items as [|x rest IH]; intros Hall; [reflexivity |].
  apply Forall_cons in Hall as [[id Hid] Hrest]. simpl. rewrite Hid.
  rewrite (IH Hrest). reflexivity.
Qed.

Lemma cache_all_outcome (key : string) (cache : string -> item -> sync_event)
    (items : list item) :
  (forall id x, is_record_sync (cache id x) = false) ->
  List.filter is_record_sync (cache_all key cache items).1 = []
  /\ ((cache_all key cache items).2 = Ret () -> all_have key items).
Proof.
  intros Hcache. induction items as [|x rest IH]; simpl.
  - split; [reflexivity | constructor].
  - destruct (x !! key) as [id|] eqn:Hid; simpl; [| split; [done | discriminate]].
    destruct IH as [Hfilter Hret].
    rewrite then_do_events, then_do_outcome. simpl. rewrite Hcache.
    split; [exact Hfilter |]. intros H.
    constructor; [by exists id | by apply Hret].
Qed.

Ltac trace_step :=
  repeat (rewrite ?then_do_events, ?then_do_outcome, ?List.filter_app; simpl).

Lemma sync_body_records (ls : listings) :
  List.filter is_record_sync (sync_body ls).1 <> [] -> complete_listings ls.
Proof.
  unfold sync_body, complete_listings.
  pose proof (cache_all_outcome "thread_id" CacheEmailThread) as H1.
  pose proof (cache_all_outcome "event_id" CacheCalendarEvent) as H2.
  pose proof (cache_all_outcome "memory_id" CacheContact) as H3.
  trace_step.
  destruct (list_emails ls 30 100) as [threads|e1]; [| by intros []].
  destruct (H1 threads ltac:(done)) as [Hf1 Hr1].
  trace_step. rewrite Hf1.
  destruct (cache_all "thread_id" CacheEmailThread threads).2 as [[]|x1];
    [| by intros []].
  trace_step.
  destruct (list_calendar_events ls 100) as [events|e2]; [| by intros []].
  destruct (H2 events ltac:(done)) as [Hf2 Hr2].
  trace_step. rewrite Hf2.
  destruct (cache_all "event_id" CacheCalendarEvent events).2 as [[]|x2];
    [| by intros []].
  trace_step.
  destruct (list_contacts ls 100) as [contacts|e3]; [| by intros []].
  destruct (H3 contacts ltac:(done)) as [Hf3 Hr3].
  trace_step. rewrite Hf3.
  destruct (cache_all "memory_id" CacheContact contacts).2 as [[]|x3];
    [| by intros []].
  intros _. exists threads, events, contacts. repeat split; auto.
Qed.

Lemma filter_cached_threads (threads : list item) :
  List.filter is_cache_write
    (map (fun x => CacheEmailThread (default "" (x !! "thread_id")) x) threads)
  = map (fun x => CacheEmailThread (default "" (x !! "thread_id")) x) threads
  /\ List.filter is_record_sync
       (map (fun x => CacheEmailThread (default "" (x !! "thread_id")) x)
          threads) = [].
Proof.
  induction threads as [|x rest [IH1 IH2]]; simpl; [done |].
  by rewrite IH1, IH2.
Qed.

Section SyncProperties.
Context {lib : PyLib}.

Lemma sync_events_authenticated (w : world) (ls : listings) (self : ZylchCLI)
    (keep : sync_event -> bool) :
  check_auth w self = Ret true ->
  (forall m, keep (SyncSay m) = false) ->
  List.filter keep (sync w ls self).1 = List.filter keep (sync_body ls).1.
Proof.
  intros Hauth Hsay. unfold sync. rewrite Hauth.
  pose proof (then_do_events (emit [SyncSay Syncing])
                (fun _ => sync_body ls)) as Hev.
  destruct (then_do (emit [SyncSay Syncing]) (fun _ => sync_body ls))
    as [events [[]|e]]; simpl in Hev; subst events.
  - simpl. by rewrite Hsay.
  - destruct e; simpl; rewrite ?List.filter_app; simpl; rewrite ?Hsay;
      by rewrite ?app_nil_r.
Qed.

(** X19: [sync] calls nothing for a session that [check_auth] rejects.  It
    records a sync only when all three listings returned and every entry
    carried its id.  What was cached before a later step failed stays
    cached: when the e-mail listing succeeds and the calendar listing
    raises, every thread is in the cache and no sync is recorded. *)
Theorem sync_records_only_complete_sync (w : world) (ls : listings)
    (self : ZylchCLI) :
  (check_auth w self = Ret false ->
     sync w ls self = ([SyncSay SyncNotLoggedIn], Ret ()))
  /\ (List.filter is_record_sync (sync w ls self).1 <> [] ->
        check_auth w self = Ret true /\ complete_listings ls)
  /\ (forall threads e,
        check_auth w self = Ret true ->
        list_emails ls 30 100 = Ret threads ->
        all_have "thread_id" threads ->
        list_calendar_events ls 100 = Raise e ->
        List.filter is_cache_write (sync w ls self).1
        = map (fun x => CacheEmailThread (default "" (x !! "thread_id")) x)
            threads
        /\ List.filter is_record_sync (sync w ls self).1 = []).
Proof.
  split; [| split].
  - intros Hauth. unfold sync. by rewrite Hauth.
  - intros Hrec. destruct (check_auth w self) as [[|]|e] eqn:Hauth.
    + split; [reflexivity |]. apply sync_body_records.
      by rewrite <- (sync_events_authenticated w ls self is_record_sync).
    + unfold sync in Hrec. rewrite Hauth in Hrec. by destruct Hrec.
    + unfold sync in Hrec. rewrite Hauth in Hrec. by destruct Hrec.
  - intros threads e Hauth Hemails Hids Hcalendar.
    rewrite !(sync_events_authenticated w ls self) by done.
    unfold sync_body. trace_step. rewrite Hemails. trace_step.
    rewrite (cache_all_complete _ _ _ Hids). simpl. trace_step.
    rewrite Hcalendar. simpl. rewrite !app_nil_r.
    destruct (filter_cached_threads threads) as [-> ->]. done.
Qed.

End SyncProperties.

(** ** The completer *)

Lemma client_side_commands_local :
  Forall (fun c => is_local_command (lower (strip c)) = true)
    client_side_commands.
Proof. repeat constructor. Qed.

Lemma server_side_commands_not_local :
  Forall (fun c => is_local_command (lower (strip c)) = false
                   /\ strip c <> "")
    server_side_commands.
Proof. repeat (constructor; [by split |]). constructor. Qed.

Section Completer.
Context {lib : PyLib}.

(** X20: what the completer offers agrees with what the dispatcher does.
    Every completion is a listed command that extends the typed text, case
    ignored, and replaces all of it.  A completion from the client-side
    group is a local command, never sent; a completion from the server-side
    group is not, and with a stored token the cycle sends it verbatim with
    the current session id. *)
Theorem completions_agree_with_dispatcher (text c : string) (position : Z)
    (w : world) (st : session) :
  (c, position) ∈ get_completions text ->
  position = (- len (lower text))%Z
  /\ startswith (lower c) (lower text) = true
  /\ ((c ∈ client_side_commands
       /\ forall message sid,
            ApiSendChat message sid
            ∉ events_of (chat_cycle w st (Some c)))
      \/ (c ∈ server_side_commands
          /\ (session_token (config (cli st)) <> "" ->
              List.filter is_remote_call
                (events_of (chat_cycle w st (Some c)))
              = [ApiSendChat c (session_id st)]))).
Proof.
  unfold get_completions. cbv zeta. intros H.
  apply list_elem_of_omap in H as (cmd & Hin & Hsome).
  destruct (startswith (lower cmd) (lower text)) eqn:Hpre; [| discriminate].
  injection Hsome as Hc Hp. subst c position.
  split; [reflexivity |]. split; [exact Hpre |].
  unfold commands in Hin. apply elem_of_app in Hin as [Hin|Hin].
  - left. split; [exact Hin |]. intros message sid.
    apply local_command_not_forwarded.
    by apply (proj1 (Forall_forall _ _) client_side_commands_local).
  - right. split; [exact Hin |]. intros Htok.
    destruct (proj1 (Forall_forall _ _) server_side_commands_not_local
                cmd Hin) as [Hloc Hblank].
    rewrite chat_cycle_not_local by done.
    destruct (decide (_ = "")); [done |]. apply send_one_call.
Qed.

End Completer.

(** ** The connection status *)

(** X21: [_show_connection_status] only reads: whatever the server answers
    or raises it makes the two status queries, Anthropic then Google, and
    no other call, a failed first query does not stop the second, and it
    always goes on to the Microsoft line and the four commands. *)
Theorem connection_status_is_read_only (sv : services) :
  List.filter (fun e => negb (is_say e)) (show_connection_status sv)
  = [CallGetAnthropicStatus; CallGetGoogleStatus]
  /\ exists shown,
       show_connection_status sv
       = (shown ++ [Say StatusMicrosoftNotConnected; Say CommandsHeader;
                    Say CommandConnectAnthropic; Say CommandConnectGoogle;
                    Say CommandConnectMicrosoft; Say CommandConnectReset])%list.
Proof.
  unfold show_connection_status. split.
  - destruct (get_anthropic_status sv) as [[[]]|];
      destruct (get_google_status sv) as [[[] [] ?]|]; reflexivity.
  - eexists. rewrite !app_assoc. reflexivity.
Qed.

(** ** The further properties on concrete runs *)

Section Runs.
#[local] Existing Instance CPython.lib.
Import Scenario Run.

(** X1 on two tokens with the payload [{"exp":1}]. *)
Lemma parse_jwt_expiry_reads_payload_only_witness :
  parse_jwt_expiry "a.eyJleHAiOjF9.b"
  = parse_jwt_expiry "header.eyJleHAiOjF9.signature".
Proof.
  exact (parse_jwt_expiry_reads_payload_only "a" "eyJleHAiOjF9" "b"
           "header" "signature" eq_refl eq_refl eq_refl eq_refl eq_refl).
Defined.

(** X2 on the token that expired in 1970, ten seconds on. *)
Lemma check_token_status_stays_expired_witness :
  check_token_status (clock + 10) token_expired
  = Ret (false, PInt (1 - clock - (clock + 10 - clock))).
Proof.
  apply (check_token_status_stays_expired clock (clock + 10) (1 - clock)
           token_expired).
  - vm_compute. discriminate.
  - vm_compute. reflexivity.
Defined.

(** X3: nothing after [ /QUIT ] is read. *)
Lemma quit_ends_the_loop_witness :
  chat_loop [(world_up, Some " /QUIT "); (world_up, Some "hello")]
    (logged_in token_opaque)
  = (logged_in token_opaque, [Print BlankLine; Print Goodbye]).
Proof.
  apply (quit_ends_the_loop world_up (logged_in token_opaque)
           (Some " /QUIT ")).
  right. simpl. rewrite !elem_of_cons. left. reflexivity.
Defined.

(** X4 on a chat message. *)
Lemma session_written_only_by_login_and_logout_witness :
  cli (state_of (chat_cycle world_up (logged_in token_opaque) (Some "hello")))
  = cli (logged_in token_opaque)
  /\ List.filter is_session_write
       (events_of
          (chat_cycle world_up (logged_in token_opaque) (Some "hello"))) = [].
Proof.
  apply (session_written_only_by_login_and_logout world_up
           (logged_in token_opaque) (Some "hello"));
    vm_compute; discriminate.
Defined.


(** X6 on a logged-out session that tries everything but [/login]. *)
Lemma logged_out_session_stays_silent_witness :
  session_token
    (config
       (cli (chat_loop [(world_up, Some "hello"); (world_up, Some "/sync");
                        (world_up, Some "/connect google");
                        (world_up, Some "/logout")] logged_out).1)) = ""
  /\ Forall allowed_logged_out
       (chat_loop [(world_up, Some "hello"); (world_up, Some "/sync");
                   (world_up, Some "/connect google");
                   (world_up, Some "/logout")] logged_out).2.
Proof.
  apply (logged_out_session_stays_silent
           [(world_up, Some "hello"); (world_up, Some "/sync");
            (world_up, Some "/connect google"); (world_up, Some "/logout")]
           logged_out).
  - reflexivity.
  - repeat (constructor; [vm_compute; discriminate |]). constructor.
Defined.

(** X7: the second message carries the id of the first reply. *)
Lemma session_id_threaded_witness :
  List.filter is_remote_call
    (events_of
       (chat_cycle world_up
          (state_of (chat_cycle world_up (logged_in token_opaque)
                       (Some "one")))
          (Some "two")))
  = [ApiSendChat "two" (Some "s1")]
  /\ List.filter is_remote_call
       (events_of
          (chat_cycle world_up
             (state_of
                (chat_cycle world_up
                   (state_of (chat_cycle world_up (logged_in token_opaque)
                                (Some "one")))
                   (Some "/new")))
             (Some "two")))
     = [ApiSendChat "two" None].
Proof.
  apply (session_id_threaded world_up world_up world_up
           (logged_in token_opaque) "one" "two" "/new"
           {| resp_session_id := Some "s1"; resp_response := Some "one";
              resp_metadata := None |});
    vm_compute; (reflexivity || discriminate).
Defined.

(** X8 on an OAuth flow that succeeds. *)
Lemma login_success_opens_session_witness :
  (login world_login_ok (cli logged_out)).1
  = {| config := set_identity (default_config "db") "tok" "u1" "a@b.c";
       client_token := "tok";
       config_file :=
         Some (set_identity (default_config "db") "tok" "u1" "a@b.c") |}
  /\ List.filter is_remote_call
       (events_of
          (chat_cycle world_up
             (with_cli logged_out (login world_login_ok (cli logged_out)).1)
             (Some "hello")))
     = [ApiSendChat "hello" (Some "s0")].
Proof.
  assert (Hrun := login_success_opens_session world_login_ok world_up
            logged_out
            (<["token" := "tok"]> (<["email" := "a@b.c"]>
               (<["owner_id" := "u1"]> ∅)))
            "tok" "hello").
  exact (Hrun eq_refl eq_refl eq_refl ltac:(discriminate) ltac:(discriminate)
           eq_refl).
Defined.

(** X9 with the expired token. *)
Lemma connect_requires_authentication_witness :
  chat_cycle world_up (logged_in token_expired) (Some "/connect google")
  = (logged_in token_expired, [Print NotLoggedInRunLogin], Continue).
Proof.
  apply (connect_requires_authentication world_up (logged_in token_expired)
           "/connect google"); vm_compute; reflexivity.
Defined.

(** X10 with the token whose [exp] is a string. *)
Lemma connect_exception_ends_chat_witness :
  chat_loop [(world_up, Some "/connect"); (world_up, Some "/logout")]
    (logged_in token_exp_string)
  = (logged_in token_exp_string,
     [Print BlankLine; Print (ChatError TypeError)]).
Proof.
  apply (connect_exception_ends_chat world_up (logged_in token_exp_string)
           "/connect" TypeError); vm_compute; reflexivity.
Defined.

(** X11: case and blanks are ignored, and [--reset] after two blanks is
    not a reset. *)
Lemma connect_runs_named_service_witness :
  chat_cycle world_up (logged_in token_opaque) (Some " /Connect   GOOGLE ")
  = (logged_in token_opaque, [RunConnectFlow ConnectGoogle], Continue)
  /\ chat_cycle world_up (logged_in token_opaque) (Some "/connect  --reset")
     = (logged_in token_opaque,
        [Print (UnknownService "--reset"); Print SupportedServices],
        Continue).
Proof.
  split.
  - apply (connect_runs_named_service world_up (logged_in token_opaque)
             " /Connect   GOOGLE " "  google");
      vm_compute; (reflexivity || discriminate).
  - apply (connect_runs_named_service world_up (logged_in token_opaque)
             "/connect  --reset" " --reset");
      vm_compute; (reflexivity || discriminate).
Defined.

(** X12 on a server that cannot be reached. *)
Lemma main_requires_healthy_server_witness :
  main None (stored token_opaque) "db" clock services_down
    [(world_up, Some "hello")]
  = ((check_server services_down).2, None, Exited 1).
Proof.
  apply (main_requires_healthy_server None (stored token_opaque) "db" clock
           services_down [(world_up, Some "hello")]).
  intros health H. discriminate H.
Defined.

(** X13 on a stored token whose [exp] is a string. *)
Lemma main_dies_on_unreadable_expiry_witness :
  (main None (stored token_exp_string) "db" clock services_up
     [(world_up, Some "/logout")]).1.2 = None
  /\ (main None (stored token_exp_string) "db" clock services_up
        [(world_up, Some "/logout")]).2 = Died TypeError.
Proof.
  apply (main_dies_on_unreadable_expiry None (stored token_exp_string) "db"
           clock services_up [(world_up, Some "/logout")] TypeError);
    vm_compute; reflexivity.
Defined.

(** X14 with the expired token and a server that is down. *)
Lemma startup_status_is_quiet_witness :
  forallb is_say
    (show_startup_status clock services_down
       (cli (logged_in token_expired))).1 = true
  /\ (show_startup_status clock services_down
        (cli (logged_in token_opaque))).2 = Ret ().
Proof.
  split.
  - apply (startup_status_is_quiet clock services_down
             (cli (logged_in token_expired))).
    right. eexists. vm_compute. reflexivity.
  - destruct (startup_status_is_quiet clock services_down
                (cli (logged_in token_opaque))) as (_ & _ & Hreturns).
    apply (Hreturns (true, PNone)). vm_compute. reflexivity.
Defined.

(** X15: the override reaches the login and the file. *)
Lemma server_url_override_is_used_and_saved_witness :
  api_server_url
    (config
       (cli (chat_loop [(world_login_ok, Some "/login");
                        (world_up, Some "/logout")]
               {| cli := set_server_url (init (stored token_opaque) "db")
                           "http://other";
                  session_id := None |}).1)) = "http://other"
  /\ Forall (targets_server "http://other")
       (chat_loop [(world_login_ok, Some "/login"); (world_up, Some "/logout")]
          {| cli := set_server_url (init (stored token_opaque) "db")
                      "http://other";
             session_id := None |}).2.
Proof.
  apply (server_url_override_is_used_and_saved "http://other"
           (stored token_opaque) "db" clock services_up
           [(world_login_ok, Some "/login"); (world_up, Some "/logout")]).
  - discriminate.
  - vm_compute. reflexivity.
Defined.

(** X16 with a user who declines. *)
Lemma disconnect_needs_confirmation_witness :
  disconnect_all_services services_declined
  = [Say DisconnectPanel; Ask AskDisconnectAll; Say Cancelled]
  /\ List.filter is_service_write (disconnect_all_services services_up)
     = [CallRevokeAnthropic; CallRevokeGoogle].
Proof.
  split.
  - apply (disconnect_needs_confirmation services_declined). reflexivity.
  - apply (disconnect_needs_confirmation services_up). reflexivity.
Defined.

(** X18 on a key typed with blanks around it. *)
Lemma anthropic_key_is_checked_before_saving_witness :
  "sk-ant-key" <> "" /\ strip "sk-ant-key" = "sk-ant-key"
  /\ (startswith "sk-ant-key" "sk-ant-" = true
      \/ confirm services_up AskContinueAnyway = true)
  /\ (anthropic_key_stored services_up = true ->
      confirm services_up AskReplaceKey = true).
Proof.
  apply (anthropic_key_is_checked_before_saving services_up "sk-ant-key").
  apply list_elem_of_In. vm_compute.
  repeat first [left; reflexivity | right].
Defined.

(** X19: two threads cached, the calendar down, no sync recorded. *)
Lemma sync_records_only_complete_sync_witness :
  List.filter is_cache_write
    (sync world_up listings_calendar_down (cli (logged_in token_opaque))).1
  = [CacheEmailThread "t1" (thread "t1"); CacheEmailThread "t2" (thread "t2")]
  /\ List.filter is_record_sync
       (sync world_up listings_calendar_down
          (cli (logged_in token_opaque))).1 = [].
Proof.
  destruct (sync_records_only_complete_sync world_up listings_calendar_down
              (cli (logged_in token_opaque))) as (_ & _ & Hpartial).
  assert (Hrun := Hpartial [thread "t1"; thread "t2"]
                    (ZylchAPIError "calendar down")).
  apply Hrun.
  - vm_compute. reflexivity.
  - reflexivity.
  - repeat (constructor; [by eexists |]). constructor.
  - reflexivity.
Defined.

(** X20: [/HE] completes to [/help], which is sent to the server. *)
Lemma completions_agree_with_dispatcher_witness :
  startswith (lower "/help") (lower "/HE") = true
  /\ List.filter is_remote_call
       (events_of (chat_cycle world_up (logged_in token_opaque) (Some "/help")))
     = [ApiSendChat "/help" None].
Proof.
  destruct (completions_agree_with_dispatcher "/HE" "/help" (-3) world_up
              (logged_in token_opaque)) as (_ & Hprefix & Hgroup).
  { apply list_elem_of_In. vm_compute. left. reflexivity. }
  split; [exact Hprefix |].
  destruct Hgroup as [[Hclient _]|[_ Hsent]].
  - exfalso. vm_compute in Hclient.
    repeat (apply elem_of_cons in Hclient as [Hclient|Hclient];
            [discriminate Hclient |]).
    by apply elem_of_nil in Hclient.
  - apply Hsent. discriminate.
Defined.

End Runs.
